(** * Employee data cleaning: the normalization and validation pipeline

    A shallow embedding of [data_cleaning.py] (steps 3 to 14 of its
    [main]) and the properties its specification states about it.

    The table is a list of rows in the table's current order.  The
    functions keep the names they have in the script.  Library calls of
    pandas are modelled by what they do to one value; the two that
    cannot be written down in full (Python's printing of a finite float
    and the permissive date parser) are parameters of the model. *)

From Stdlib Require Import Bool Arith ZArith QArith Qabs List Ascii String Lia.
Import ListNotations.
Local Open Scope string_scope.
Local Open Scope Z_scope.

(* ===================================================================== *)
(** ** Exceptions *)
(* ===================================================================== *)

(** A stage either returns a value or raises.  Only the kind of the
    exception is kept. *)
Inductive exn : Type := AttributeError | ValueError.

Inductive result (A : Type) : Type :=
| Ok (a : A)
| Raise (e : exn).
Arguments Ok {A} a.
Arguments Raise {A} e.

Definition bind {A B : Type} (m : result A) (k : A -> result B) : result B :=
  match m with
  | Ok a => k a
  | Raise e => Raise e
  end.

Notation "x <- m ;; k" := (bind m (fun x => k))
  (at level 61, m at next level, right associativity).

(** Apply a fallible function to every element, first failure wins. *)
Fixpoint traverse {A B : Type} (f : A -> result B) (l : list A) : result (list B) :=
  match l with
  | [] => Ok []
  | a :: l' => b <- f a ;; bs <- traverse f l' ;; Ok (b :: bs)
  end.

(* ===================================================================== *)
(** ** Text *)
(* ===================================================================== *)

(** Text is a [string]; the character classes below are Python's on the
    ASCII range.  Characters outside it are neither whitespace nor cased
    here, so the model is exact on ASCII text. *)

Definition code (c : ascii) : Z := Z.of_N (N_of_ascii c).

Definition between (lo hi : Z) (c : ascii) : bool :=
  (lo <=? code c) && (code c <=? hi).

(** [str.isspace] on one ASCII character: TAB, LF, VT, FF, CR, the four
    separators FS GS RS US, and the space. *)
Definition isspace (c : ascii) : bool :=
  between 9 13 c || between 28 32 c.

Definition isupper (c : ascii) : bool := between 65 90 c.
Definition islower (c : ascii) : bool := between 97 122 c.
Definition isalpha (c : ascii) : bool := isupper c || islower c.
Definition isdigit (c : ascii) : bool := between 48 57 c.

Definition to_lower (c : ascii) : ascii :=
  if isupper c then ascii_of_N (N_of_ascii c + 32) else c.
Definition to_upper (c : ascii) : ascii :=
  if islower c then ascii_of_N (N_of_ascii c - 32) else c.

Fixpoint map_chars (f : ascii -> ascii) (s : string) : string :=
  match s with
  | EmptyString => EmptyString
  | String c t => String (f c) (map_chars f t)
  end.

(** [str.lower] *)
Definition lower (s : string) : string := map_chars to_lower s.

(** [str.title]: a cased character is upper-cased when the character
    before it is not cased, and lower-cased otherwise. *)
Fixpoint title_from (previous_is_cased : bool) (s : string) : string :=
  match s with
  | EmptyString => EmptyString
  | String c t =>
      String (if previous_is_cased then to_lower c else to_upper c)
             (title_from (isalpha c) t)
  end.
Definition title (s : string) : string := title_from false s.

(** [str.lstrip], [str.rstrip] and [str.strip] with no argument. *)
Fixpoint lstrip (s : string) : string :=
  match s with
  | EmptyString => EmptyString
  | String c t => if isspace c then lstrip t else s
  end.

Fixpoint rstrip (s : string) : string :=
  match s with
  | EmptyString => EmptyString
  | String c t =>
      match rstrip t with
      | EmptyString => if isspace c then EmptyString else String c EmptyString
      | r => String c r
      end
  end.

Definition strip (s : string) : string := rstrip (lstrip s).

(** [s.replace(',', '')] *)
Fixpoint remove_commas (s : string) : string :=
  match s with
  | EmptyString => EmptyString
  | String c t => if Ascii.eqb c "," then remove_commas t else String c (remove_commas t)
  end.

(** What the properties say about a text value. *)

Definition starts_with_space (s : string) : bool :=
  match s with
  | EmptyString => false
  | String c _ => isspace c
  end.

Fixpoint ends_with_space (s : string) : bool :=
  match s with
  | EmptyString => false
  | String c EmptyString => isspace c
  | String _ t => ends_with_space t
  end.

(** No leading and no trailing whitespace. *)
Definition trimmed (s : string) : bool :=
  negb (starts_with_space s) && negb (ends_with_space s).



(* ===================================================================== *)
(** ** Numbers, dates and cells *)
(* ===================================================================== *)

(** A float64 of the table is kept as the exact value it stands for,
    next to the three values that are no number: NaN, which is the
    missing marker of a numeric column, and the two infinities.
    Rounding is not part of the model. *)
Inductive float64 : Type :=
| NaN
| Inf (negative : bool)
| Fin (q : Q).

(** [x < y], [x <= y] and [x == y] on floats: every comparison with NaN
    is false. *)
Definition float_ltb (x y : float64) : bool :=
  match x, y with
  | NaN, _ | _, NaN => false
  | Inf true, Inf true => false
  | Inf true, _ => true
  | _, Inf true => false
  | Inf false, _ => false
  | Fin _, Inf false => true
  | Fin p, Fin q => negb (Qle_bool q p)
  end.


Definition float_eqb (x y : float64) : bool :=
  match x, y with
  | Inf a, Inf b => Bool.eqb a b
  | Fin p, Fin q => Qeq_bool p q
  | _, _ => false
  end.

(** [abs] *)
Definition float_abs (x : float64) : float64 :=
  match x with
  | NaN => NaN
  | Inf _ => Inf false
  | Fin q => Fin (Qabs q)
  end.

Definition zero : float64 := Fin 0.

(** A timestamp is a count of nanoseconds since the epoch; [None] is
    NaT, the missing marker of a date column. *)
Definition timestamp : Type := option Z.
Definition NaT : timestamp := None.

(** [a < b] and [a >= b] on timestamps: false when either is NaT. *)
Definition date_ltb (a b : timestamp) : bool :=
  match a, b with
  | Some x, Some y => x <? y
  | _, _ => false
  end.

Definition date_geb (a b : timestamp) : bool :=
  match a, b with
  | Some x, Some y => y <=? x
  | _, _ => false
  end.

(** A cell of a column that has not been converted: text, or a number
    (NaN when the cell is empty), as the readers of [load_data] deliver
    them. *)
Inductive cell : Type :=
| Str (s : string)
| Num (x : float64).

Definition is_str (c : cell) : bool :=
  match c with Str _ => true | Num _ => false end.

(** The dtype a column gets from its values: [object] as soon as one
    cell holds text (and for a table without rows), a numeric dtype when
    every cell is a number or empty. *)
Definition is_object (col : list cell) : bool :=
  match col with
  | [] => true
  | _ => existsb is_str col
  end.

(** Equality of keys as [duplicated] sees it: numbers by value, and a
    missing key equal to a missing key. *)
Definition same_key (a b : cell) : bool :=
  match a, b with
  | Str s, Str t => String.eqb s t
  | Num NaN, Num NaN => true
  | Num x, Num y => float_eqb x y
  | _, _ => false
  end.

(* ===================================================================== *)
(** ** Reading a number: [pd.to_numeric] on one value *)
(* ===================================================================== *)

(** The literals modelled are the ones the tokenizer of pandas reads:
    blanks, a sign, digits with an optional fraction, an optional
    exponent; and the words for NaN and the infinities. *)

Definition c_isspace (c : ascii) : bool := between 9 13 c || (code c =? 32).

Fixpoint skip_blanks (s : string) : string :=
  match s with
  | EmptyString => EmptyString
  | String c t => if c_isspace c then skip_blanks t else s
  end.

Definition read_sign (s : string) : bool * string :=
  match s with
  | String "-" t => (true, t)
  | String "+" t => (false, t)
  | _ => (false, s)
  end.

(** Reads a run of digits: the value accumulated, how many were read,
    and the rest. *)
Fixpoint read_digits (s : string) (acc : Z) (n : nat) : Z * nat * string :=
  match s with
  | EmptyString => (acc, n, EmptyString)
  | String c t =>
      if isdigit c then read_digits t (10 * acc + (code c - 48)) (S n)
      else (acc, n, s)
  end.

(** [m * 10 ^ e] *)
Definition scale10 (m e : Z) : Q :=
  if 0 <=? e then (m * 10 ^ e) # 1 else m # Z.to_pos (10 ^ (- e)).

Definition read_exponent (s : string) : Z * string :=
  match s with
  | String c t =>
      if Ascii.eqb c "e" || Ascii.eqb c "E" then
        let (neg, t1) := read_sign t in
        let '(ev, ne, t2) := read_digits t1 0 0%nat in
        if (ne =? 0)%nat then (0, s) else ((if neg then - ev else ev), t2)
      else (0, s)
  | EmptyString => (0, s)
  end.

Definition parse_decimal (s : string) : option Q :=
  let (neg, s1) := read_sign (skip_blanks s) in
  let '(ip, ni, s2) := read_digits s1 0 0%nat in
  let '(m, nf, s3) :=
    match s2 with
    | String "." t => read_digits t ip 0%nat
    | _ => (ip, 0%nat, s2)
    end in
  if (ni + nf =? 0)%nat then None
  else
    let (ex, s4) := read_exponent s3 in
    match skip_blanks s4 with
    | EmptyString => Some (scale10 (if neg then - m else m) (ex - Z.of_nat nf))
    | _ => None
    end.

Definition parse_word (s : string) : option float64 :=
  let (neg, w) := read_sign s in
  let w := lower w in
  if String.eqb w "nan" then Some NaN
  else if String.eqb w "inf" || String.eqb w "infinity" then Some (Inf neg)
  else None.

Definition parse_float (s : string) : option float64 :=
  match parse_decimal s with
  | Some q => Some (Fin q)
  | None => parse_word s
  end.

(** The [errors] argument of [to_numeric] and [to_datetime]. *)
Inductive errors_mode : Type := errors_raise | errors_coerce.

Definition to_numeric (errors : errors_mode) (c : cell) : result float64 :=
  match c with
  | Num x => Ok x
  | Str s =>
      match parse_float s with
      | Some x => Ok x
      | None =>
          match errors with
          | errors_coerce => Ok NaN
          | errors_raise => Raise ValueError
          end
      end
  end.


(* ===================================================================== *)
(** ** Rows and tables *)
(* ===================================================================== *)

(** One employee record.  The salary and the manager id have type [N],
    the two dates type [D] and the validity flag type [V]: a raw table
    holds cells there and no flag, [convert_data_types] turns them into
    floats and timestamps, [validate_emails] adds the flag. *)
Record Row (N D V : Type) : Type := mkRow {
  employee_id : cell;
  first_name : cell;
  last_name : cell;
  email : cell;
  gender : cell;
  department : cell;
  currency : cell;
  country : cell;
  state : cell;
  city : cell;
  salary : N;
  manager_id : N;
  hire_date : D;
  exit_date : D;
  email_valid : V
}.
Arguments mkRow {N D V}.
Arguments employee_id {N D V} r.
Arguments first_name {N D V} r.
Arguments last_name {N D V} r.
Arguments email {N D V} r.
Arguments gender {N D V} r.
Arguments department {N D V} r.
Arguments currency {N D V} r.
Arguments country {N D V} r.
Arguments state {N D V} r.
Arguments city {N D V} r.
Arguments salary {N D V} r.
Arguments manager_id {N D V} r.
Arguments hire_date {N D V} r.
Arguments exit_date {N D V} r.
Arguments email_valid {N D V} r.

Definition RawRow : Type := Row cell cell unit.
Definition TypedRow (V : Type) : Type := Row float64 timestamp V.

(** [df[col] = ...] on one row. *)
Section Setters.
Context {N D V : Type}.

Definition set_employee_id (v : cell) (r : Row N D V) : Row N D V :=
  mkRow v (first_name r) (last_name r) (email r) (gender r) (department r)
    (currency r) (country r) (state r) (city r) (salary r) (manager_id r)
    (hire_date r) (exit_date r) (email_valid r).

Definition set_first_name (v : cell) (r : Row N D V) : Row N D V :=
  mkRow (employee_id r) v (last_name r) (email r) (gender r) (department r)
    (currency r) (country r) (state r) (city r) (salary r) (manager_id r)
    (hire_date r) (exit_date r) (email_valid r).

Definition set_last_name (v : cell) (r : Row N D V) : Row N D V :=
  mkRow (employee_id r) (first_name r) v (email r) (gender r) (department r)
    (currency r) (country r) (state r) (city r) (salary r) (manager_id r)
    (hire_date r) (exit_date r) (email_valid r).

Definition set_email (v : cell) (r : Row N D V) : Row N D V :=
  mkRow (employee_id r) (first_name r) (last_name r) v (gender r)
    (department r) (currency r) (country r) (state r) (city r) (salary r)
    (manager_id r) (hire_date r) (exit_date r) (email_valid r).

Definition set_gender (v : cell) (r : Row N D V) : Row N D V :=
  mkRow (employee_id r) (first_name r) (last_name r) (email r) v
    (department r) (currency r) (country r) (state r) (city r) (salary r)
    (manager_id r) (hire_date r) (exit_date r) (email_valid r).

Definition set_department (v : cell) (r : Row N D V) : Row N D V :=
  mkRow (employee_id r) (first_name r) (last_name r) (email r) (gender r) v
    (currency r) (country r) (state r) (city r) (salary r) (manager_id r)
    (hire_date r) (exit_date r) (email_valid r).

Definition set_currency (v : cell) (r : Row N D V) : Row N D V :=
  mkRow (employee_id r) (first_name r) (last_name r) (email r) (gender r)
    (department r) v (country r) (state r) (city r) (salary r)
    (manager_id r) (hire_date r) (exit_date r) (email_valid r).

Definition set_country (v : cell) (r : Row N D V) : Row N D V :=
  mkRow (employee_id r) (first_name r) (last_name r) (email r) (gender r)
    (department r) (currency r) v (state r) (city r) (salary r)
    (manager_id r) (hire_date r) (exit_date r) (email_valid r).

Definition set_state (v : cell) (r : Row N D V) : Row N D V :=
  mkRow (employee_id r) (first_name r) (last_name r) (email r) (gender r)
    (department r) (currency r) (country r) v (city r) (salary r)
    (manager_id r) (hire_date r) (exit_date r) (email_valid r).

Definition set_city (v : cell) (r : Row N D V) : Row N D V :=
  mkRow (employee_id r) (first_name r) (last_name r) (email r) (gender r)
    (department r) (currency r) (country r) (state r) v (salary r)
    (manager_id r) (hire_date r) (exit_date r) (email_valid r).

Definition set_salary (v : N) (r : Row N D V) : Row N D V :=
  mkRow (employee_id r) (first_name r) (last_name r) (email r) (gender r)
    (department r) (currency r) (country r) (state r) (city r) v
    (manager_id r) (hire_date r) (exit_date r) (email_valid r).

Definition set_manager_id (v : N) (r : Row N D V) : Row N D V :=
  mkRow (employee_id r) (first_name r) (last_name r) (email r) (gender r)
    (department r) (currency r) (country r) (state r) (city r) (salary r) v
    (hire_date r) (exit_date r) (email_valid r).

Definition set_hire_date (v : D) (r : Row N D V) : Row N D V :=
  mkRow (employee_id r) (first_name r) (last_name r) (email r) (gender r)
    (department r) (currency r) (country r) (state r) (city r) (salary r)
    (manager_id r) v (exit_date r) (email_valid r).

Definition set_exit_date (v : D) (r : Row N D V) : Row N D V :=
  mkRow (employee_id r) (first_name r) (last_name r) (email r) (gender r)
    (department r) (currency r) (country r) (state r) (city r) (salary r)
    (manager_id r) (hire_date r) v (email_valid r).

(** [df['email_valid'] = ...] creates the column or overwrites it. *)
Definition set_email_valid {V' : Type} (v : V') (r : Row N D V) : Row N D V' :=
  mkRow (employee_id r) (first_name r) (last_name r) (email r) (gender r)
    (department r) (currency r) (country r) (state r) (city r) (salary r)
    (manager_id r) (hire_date r) (exit_date r) v.

End Setters.

(** The columns of a raw table, in the order of the data model. *)
Inductive column : Type :=
| col_employee_id
| col_first_name
| col_last_name
| col_email
| col_gender
| col_department
| col_currency
| col_country
| col_state
| col_city
| col_salary
| col_manager_id
| col_hire_date
| col_exit_date.

Definition all_columns : list column :=
  [col_employee_id; col_first_name; col_last_name; col_email; col_gender;
   col_department; col_currency; col_country; col_state; col_city;
   col_salary; col_manager_id; col_hire_date; col_exit_date].

Definition get {V : Type} (c : column) (r : Row cell cell V) : cell :=
  match c with
  | col_employee_id => employee_id r
  | col_first_name => first_name r
  | col_last_name => last_name r
  | col_email => email r
  | col_gender => gender r
  | col_department => department r
  | col_currency => currency r
  | col_country => country r
  | col_state => state r
  | col_city => city r
  | col_salary => salary r
  | col_manager_id => manager_id r
  | col_hire_date => hire_date r
  | col_exit_date => exit_date r
  end.

Definition set {V : Type} (c : column) (v : cell) (r : Row cell cell V) :
  Row cell cell V :=
  match c with
  | col_employee_id => set_employee_id v r
  | col_first_name => set_first_name v r
  | col_last_name => set_last_name v r
  | col_email => set_email v r
  | col_gender => set_gender v r
  | col_department => set_department v r
  | col_currency => set_currency v r
  | col_country => set_country v r
  | col_state => set_state v r
  | col_city => set_city v r
  | col_salary => set_salary v r
  | col_manager_id => set_manager_id v r
  | col_hire_date => set_hire_date v r
  | col_exit_date => set_exit_date v r
  end.

(* ===================================================================== *)
(** ** Regular expressions: [re.match] *)
(* ===================================================================== *)

(** The fragment of Python's regular expressions the script uses, closed
    under derivatives. *)
Inductive regex : Type :=
| Never                         (* matches no text *)
| Eps                           (* matches the empty text *)
| Lit (c : ascii)               (* one given character *)
| Dot                           (* [.]: any character but the line feed *)
| Cat (r1 r2 : regex)
| Alt (r1 r2 : regex)
| Star (r : regex).

(** [r+] *)
Definition Plus (r : regex) : regex := Cat r (Star r).

Definition line_feed : ascii := "010"%char.

Fixpoint nullable (r : regex) : bool :=
  match r with
  | Never | Lit _ | Dot => false
  | Eps | Star _ => true
  | Cat r1 r2 => nullable r1 && nullable r2
  | Alt r1 r2 => nullable r1 || nullable r2
  end.

(** What is left of [r] to match after reading [c]. *)
Fixpoint deriv (c : ascii) (r : regex) : regex :=
  match r with
  | Never | Eps => Never
  | Lit d => if Ascii.eqb c d then Eps else Never
  | Dot => if Ascii.eqb c line_feed then Never else Eps
  | Cat r1 r2 =>
      if nullable r1 then Alt (Cat (deriv c r1) r2) (deriv c r2)
      else Cat (deriv c r1) r2
  | Alt r1 r2 => Alt (deriv c r1) (deriv c r2)
  | Star r1 => Cat (deriv c r1) (Star r1)
  end.

(** [re.match(r, s)] finds a match when [r] matches some text that [s]
    starts with. *)
Fixpoint re_match (r : regex) (s : string) : bool :=
  nullable r ||
  match s with
  | EmptyString => false
  | String c t => re_match (deriv c r) t
  end.

(** The texts a pattern matches in full. *)
Inductive matches : regex -> string -> Prop :=
| m_eps : matches Eps ""
| m_lit c : matches (Lit c) (String c "")
| m_dot c : c <> line_feed -> matches Dot (String c "")
| m_cat r1 r2 s1 s2 : matches r1 s1 -> matches r2 s2 -> matches (Cat r1 r2) (s1 ++ s2)
| m_alt_l r1 r2 s : matches r1 s -> matches (Alt r1 r2) s
| m_alt_r r1 r2 s : matches r2 s -> matches (Alt r1 r2) s
| m_star_nil r : matches (Star r) ""
| m_star_app r s1 s2 : matches r s1 -> matches (Star r) s2 -> matches (Star r) (s1 ++ s2).

(** [email_pattern = r'.+@.+\..+'] *)
Definition email_pattern : regex :=
  Cat (Plus Dot) (Cat (Lit "@") (Cat (Plus Dot) (Cat (Lit ".") (Plus Dot)))).

(* ===================================================================== *)
(** ** Column helpers *)
(* ===================================================================== *)

(** [df[c] = f(df[c])] for an [f] that works value by value. *)
Definition assign {V : Type} (c : column) (f : cell -> cell)
  (df : list (Row cell cell V)) : list (Row cell cell V) :=
  map (fun r => set c (f (get c r)) r) df.

(** The [.str] accessor exists on a column of dtype object only. *)
Definition str_accessor (col : list cell) : result unit :=
  if is_object col then Ok tt else Raise AttributeError.

(** A [.str] method on one value: the method on text, NaN on a value
    that is no text. *)
Definition str_method (f : string -> string) (c : cell) : cell :=
  match c with
  | Str s => Str (f s)
  | Num _ => Num NaN
  end.

(** [df[mask]] *)
Fixpoint select {A : Type} (mask : list bool) (df : list A) : list A :=
  match mask, df with
  | b :: mask', r :: df' => if b then r :: select mask' df' else select mask' df'
  | _, _ => []
  end.

(** A static mapping table, and [Series.replace(mapping)] on one value:
    a value equal to a key is replaced by what the key maps to, any
    other value stays. *)
Definition mapping : Type := list (string * string).

Fixpoint lookup (k : string) (m : mapping) : option string :=
  match m with
  | [] => None
  | (k', v) :: m' => if String.eqb k k' then Some v else lookup k m'
  end.

Definition replace (m : mapping) (c : cell) : cell :=
  match c with
  | Str s => match lookup s m with Some v => Str v | None => c end
  | Num _ => c
  end.

Definition canonical (m : mapping) : list string := map snd m.

(* ===================================================================== *)
(** ** The stages *)
(* ===================================================================== *)

Section Pipeline.

(** What the model takes from the libraries as given: the text Python
    prints for a finite float, and what the date parser of pandas makes
    of one raw value under [format='mixed', dayfirst=True] ([None] when
    the value does not parse as a date). *)
Variable float_repr : Q -> string.
Variable parse_datetime : cell -> option Z.

(** [astype(str)] on one value. *)
Definition astype_str (c : cell) : string :=
  match c with
  | Str s => s
  | Num NaN => "nan"
  | Num (Inf false) => "inf"
  | Num (Inf true) => "-inf"
  | Num (Fin q) => float_repr q
  end.

(** [pd.to_datetime(..., format='mixed', dayfirst=True, errors=...)] on
    one value. *)
Definition to_datetime (errors : errors_mode) (c : cell) : result timestamp :=
  match c with
  | Num NaN => Ok NaT
  | _ =>
      match parse_datetime c with
      | Some t => Ok (Some t)
      | None =>
          match errors with
          | errors_coerce => Ok NaT
          | errors_raise => Raise ValueError
          end
      end
  end.

(** *** Step 3: string cleaning *)

Definition clean_strings {V : Type} (df : list (Row cell cell V)) :
  result (list (Row cell cell V)) :=
  (* string_cols = df.select_dtypes(include=['object']).columns *)
  let string_cols := filter (fun c => is_object (map (get c) df)) all_columns in
  (* for col in string_cols: df[col] = df[col].astype(str).str.strip() *)
  let df :=
    fold_left (fun d col => assign col (fun v => Str (strip (astype_str v))) d)
              string_cols df in
  (* df['first_name'] = df['first_name'].str.title() *)
  _ <- str_accessor (map first_name df) ;;
  let df := assign col_first_name (str_method title) df in
  (* df['last_name'] = df['last_name'].str.title() *)
  _ <- str_accessor (map last_name df) ;;
  let df := assign col_last_name (str_method title) df in
  (* df['email'] = df['email'].str.lower() *)
  _ <- str_accessor (map email df) ;;
  let df := assign col_email (str_method lower) df in
  (* df['city'] = df['city'].str.title() *)
  _ <- str_accessor (map city df) ;;
  let df := assign col_city (str_method title) df in
  Ok df.

(** *** Step 4: data type conversions

    The script converts column by column; no conversion looks at
    another column or another row, so the model converts row by row, in
    the script's order of columns. *)

Definition convert_row {V : Type} (r : Row cell cell V) : result (Row float64 timestamp V) :=
  (* df['salary'].astype(str).str.replace(',', '').str.strip(), then
     pd.to_numeric(df['salary'], errors='coerce') *)
  sal <- to_numeric errors_coerce
           (Str (strip (remove_commas (astype_str (salary r))))) ;;
  (* pd.to_numeric(df['manager_id'], errors='coerce') *)
  mgr <- to_numeric errors_coerce (manager_id r) ;;
  (* pd.to_datetime(df['hire_date'], format='mixed', dayfirst=True, errors='coerce') *)
  hd <- to_datetime errors_coerce (hire_date r) ;;
  ed <- to_datetime errors_coerce (exit_date r) ;;
  Ok (mkRow (employee_id r) (first_name r) (last_name r) (email r) (gender r)
            (department r) (currency r) (country r) (state r) (city r)
            sal mgr hd ed (email_valid r)).

Definition convert_data_types {V : Type} (df : list (Row cell cell V)) :
  result (list (Row float64 timestamp V)) :=
  traverse convert_row df.

(** *** Steps 5 to 9: category standardization *)

Definition gender_mapping : mapping :=
  [("M", "Male"); ("Male", "Male"); ("F", "Female"); ("Female", "Female");
   ("Other", "Other")].

Definition dept_mapping : mapping :=
  [("HR", "Human Resource"); ("H.R", "Human Resource");
   ("H.R.", "Human Resource"); ("Human Resources", "Human Resource");
   ("Human Resource", "Human Resource");
   ("IT", "Information Technology");
   ("Information Technology", "Information Technology");
   ("Ops", "Operations"); ("Operations", "Operations");
   ("Eng", "Engineering"); ("Engineering", "Engineering");
   ("FIN", "Finance"); ("Finance", "Finance");
   ("sales", "Sales"); ("Sales", "Sales")].

Definition currency_map : mapping :=
  [("ZAR", "ZAR"); ("R", "ZAR"); ("$", "USD"); ("GBP", "GBP"); ("£", "GBP");
   ("Â£", "GBP"); ("USD", "USD")].

Definition country_mapping : mapping :=
  [("south-africa", "South Africa"); ("South Africa", "South Africa");
   ("SA", "South Africa"); ("ZA", "South Africa"); ("UK", "United Kingdom");
   ("U.K.", "United Kingdom"); ("United Kingdom", "United Kingdom");
   ("USA", "United States"); ("United States", "United States")].

Definition state_mapping : mapping :=
  [("KZN", "KwaZulu-Natal"); ("KwaZulu-Natal", "KwaZulu-Natal");
   ("Western Cape", "Western Cape"); ("Gauteng", "Gauteng");
   ("Limpopo", "Limpopo")].

Section Standardize.
Context {N D V : Type}.

(** [df['gender'] = df['gender'].replace(gender_mapping)] *)
Definition standardize_gender (df : list (Row N D V)) : list (Row N D V) :=
  map (fun r => set_gender (replace gender_mapping (gender r)) r) df.

(** [df['department'].astype(str).str.strip().replace(dept_mapping)] *)
Definition standardize_department (df : list (Row N D V)) : list (Row N D V) :=
  map (fun r =>
         set_department
           (replace dept_mapping (Str (strip (astype_str (department r))))) r)
      df.

Definition standardize_currency (df : list (Row N D V)) : list (Row N D V) :=
  map (fun r => set_currency (replace currency_map (currency r)) r) df.

Definition standardize_country (df : list (Row N D V)) : list (Row N D V) :=
  map (fun r => set_country (replace country_mapping (country r)) r) df.

Definition standardize_state (df : list (Row N D V)) : list (Row N D V) :=
  map (fun r => set_state (replace state_mapping (state r)) r) df.

(** Steps 5 to 9 in the order of [main]. *)
Definition standardize_categories (df : list (Row N D V)) : list (Row N D V) :=
  standardize_state
    (standardize_country
       (standardize_currency
          (standardize_department
             (standardize_gender df)))).

End Standardize.

(** *** Step 10: email validation *)

(** [df['email'].str.match(email_pattern, na=False)] on one value: a
    value that is no text gives the [na] value. *)
Definition str_match (r : regex) (na : bool) (c : cell) : bool :=
  match c with
  | Str s => re_match r s
  | Num _ => na
  end.

Definition validate_emails {N D V : Type} (df : list (Row N D V)) :
  result (list (Row N D bool)) :=
  _ <- str_accessor (map email df) ;;
  Ok (map (fun r => set_email_valid (str_match email_pattern false (email r)) r) df).

(** *** Step 11: negative salaries *)

Definition fix_negative_salaries {D V : Type} (df : list (Row float64 D V)) :
  list (Row float64 D V) :=
  (* negative_salaries = df[df['salary'] < 0] *)
  let negative_salaries := filter (fun r => float_ltb (salary r) zero) df in
  if (0 <? List.length negative_salaries)%nat then
    (* df['salary'] = df['salary'].abs() *)
    map (fun r => set_salary (float_abs (salary r)) r) df
  else df.

(** *** Step 12: date logic *)

Definition validate_dates {N V : Type} (df : list (Row N timestamp V)) :
  list (Row N timestamp V) :=
  (* invalid_dates = df[df['exit_date'] < df['hire_date']] *)
  let invalid_dates := filter (fun r => date_ltb (exit_date r) (hire_date r)) df in
  if (0 <? List.length invalid_dates)%nat then
    (* df.loc[df['exit_date'] < df['hire_date'], 'exit_date'] = pd.NaT *)
    map (fun r => if date_ltb (exit_date r) (hire_date r)
                  then set_exit_date NaT r else r) df
  else df.

(** *** Step 14: duplicates *)

(** [Series.duplicated()], which keeps the first: a row is marked when
    its key was met in an earlier row. *)
Fixpoint duplicated_from (seen keys : list cell) : list bool :=
  match keys with
  | [] => []
  | k :: keys' => existsb (same_key k) seen :: duplicated_from (k :: seen) keys'
  end.

Definition duplicated (keys : list cell) : list bool := duplicated_from [] keys.

(** [df.drop_duplicates(subset=['employee_id'], keep='first')] *)
Definition drop_duplicates {N D V : Type} (df : list (Row N D V)) : list (Row N D V) :=
  select (map negb (duplicated (map employee_id df))) df.

Definition remove_duplicates {N D V : Type} (df : list (Row N D V)) : list (Row N D V) :=
  (* if df['employee_id'].duplicated().sum() > 0 *)
  if (0 <? count_occ bool_dec (duplicated (map employee_id df)) true)%nat then
    drop_duplicates df
  else df.

(** *** Steps 3 to 14 in the order of [main] *)

Definition cleaning_pipeline (df : list RawRow) : result (list (TypedRow bool)) :=
  df <- clean_strings df ;;
  df <- convert_data_types df ;;
  let df := standardize_gender df in
  let df := standardize_department df in
  let df := standardize_currency df in
  let df := standardize_country df in
  let df := standardize_state df in
  df <- validate_emails df ;;
  let df := fix_negative_salaries df in
  let df := validate_dates df in
  Ok (remove_duplicates df).

End Pipeline.

(* ===================================================================== *)
(** ** The words of the specification *)
(* ===================================================================== *)

Fixpoint no_line_feed (s : string) : bool :=
  match s with
  | EmptyString => true
  | String c t => negb (Ascii.eqb c line_feed) && no_line_feed t
  end.

(** A non-empty text without a line feed. *)
Definition one_line (s : string) : bool :=
  match s with
  | EmptyString => false
  | _ => no_line_feed s
  end.

(** "Some non-empty prefix, then [@], then some non-empty text, then a
    literal [.], then some non-empty suffix." *)
Definition email_structure (s : string) : Prop :=
  exists p t u : string,
    s = p ++ "@" ++ t ++ "." ++ u /\ p <> "" /\ t <> "" /\ u <> "".

(** [Subseq out df]: the rows of [out] are rows of [df], in the order
    they have in [df]. *)
Inductive Subseq {A : Type} : list A -> list A -> Prop :=
| subseq_nil : Subseq [] []
| subseq_keep a out df : Subseq out df -> Subseq (a :: out) (a :: df)
| subseq_drop a out df : Subseq out df -> Subseq out (a :: df).

(** The record with the id [k] that comes first in a table. *)
Definition first_with_id {N D V : Type} (k : cell) (df : list (Row N D V)) :
  option (Row N D V) :=
  find (fun r => same_key k (employee_id r)) df.

(** Whether some row of [df] has the id of [r]. *)
Definition id_among {N D V : Type} (r : Row N D V) (df : list (Row N D V)) : bool :=
  existsb (fun r0 => same_key (employee_id r) (employee_id r0)) df.

(** Both dates present and in order, or one of them missing. *)
Definition dates_in_order {N V : Type} (r : Row N timestamp V) : Prop :=
  forall e h, exit_date r = Some e -> hire_date r = Some h -> h <= e.

(** The exit date is present and lies before the hire date. *)
Definition dates_inverted {N V : Type} (r : Row N timestamp V) : Prop :=
  exists e h, exit_date r = Some e /\ hire_date r = Some h /\ e < h.


(** Two rows agree on the ten columns that no conversion touches. *)
Definition same_cells {N D V N' D' V' : Type} (r : Row N D V) (r' : Row N' D' V') : Prop :=
  employee_id r' = employee_id r /\ first_name r' = first_name r /\
  last_name r' = last_name r /\ email r' = email r /\ gender r' = gender r /\
  department r' = department r /\ currency r' = currency r /\
  country r' = country r /\ state r' = state r /\ city r' = city r.

(** The salary of a raw row as [to_numeric] gets it: printed as text,
    the commas removed, the whitespace stripped. *)
Definition salary_text (float_repr : Q -> string) {V : Type} (r : Row cell cell V) : string :=
  strip (remove_commas (astype_str float_repr (salary r))).



(** Every canonical value of the table is a key that maps to itself. *)
Definition canonical_fixed (m : mapping) : bool :=
  forallb (fun v => match lookup v m with
                    | Some v' => String.eqb v' v
                    | None => false
                    end) (canonical m).

Definition mapping_tables : list mapping :=
  [gender_mapping; dept_mapping; currency_map; country_mapping; state_mapping].


(** The four columns [clean_strings] calls a [.str] method on. *)
Definition cased_columns : list column :=
  [col_first_name; col_last_name; col_email; col_city].

(** What [clean_strings] does to the letters of a column. *)
Definition letter_case (c : column) : string -> string :=
  match c with
  | col_first_name | col_last_name | col_city => title
  | col_email => lower
  | _ => fun s => s
  end.

(** The value of column [c] after [clean_strings]: in a column of dtype
    object, the value printed as text, stripped, and put in the case of
    the column; in any other column, the value itself. *)
Definition cleaned (float_repr : Q -> string) (object : bool) (c : column) (v : cell) : cell :=
  if object then Str (letter_case c (strip (astype_str float_repr v))) else v.

(* ===================================================================== *)
(** ** One row through a stage *)
(* ===================================================================== *)

(** The rows that [drop_duplicates] keeps when the ids in [seen] have
    been met already. *)
Definition keep_from {N D V : Type} (seen : list cell) (df : list (Row N D V)) :
  list (Row N D V) :=
  select (map negb (duplicated_from seen (map employee_id df))) df.

Definition column_eq_dec (a b : column) : {a = b} + {a <> b}.
Proof. decide equality. Defined.

(** The loop [for col in cols: df[col] = f(df[col])], seen from one
    row. *)
Definition assign_row {V : Type} (f : cell -> cell) (cols : list column)
  (r : Row cell cell V) : Row cell cell V :=
  fold_left (fun r col => set col (f (get col r)) r) cols r.

(** Whether column [c] of a raw table has dtype object. *)
Definition object_column {V : Type} (df : list (Row cell cell V)) (c : column) : bool :=
  is_object (map (get c) df).

(** A row of [df] after the loop of [clean_strings] over the columns of
    dtype object. *)
Definition stripped_row {V : Type} (float_repr : Q -> string)
  (df : list (Row cell cell V)) (r : Row cell cell V) : Row cell cell V :=
  assign_row (fun v => Str (strip (astype_str float_repr v)))
             (filter (object_column df) all_columns) r.

(** A row after the four [.str] calls of [clean_strings]. *)
Definition cased_row {V : Type} (r : Row cell cell V) : Row cell cell V :=
  set col_city (str_method title (city r))
    (set col_email (str_method lower (email r))
       (set col_last_name (str_method title (last_name r))
          (set col_first_name (str_method title (first_name r)) r))).

(* ===================================================================== *)
(** ** The library parameters in the worked examples *)
(* ===================================================================== *)

(** The examples need the two library parameters at a few inputs only.
    [iso_dates] reads the one format [YYYY-MM-DD] (which the parser of
    pandas reads the same way) and nothing else; no example prints a
    finite number, so [repr_unused] is never consulted. *)

Definition days_from_civil (y m d : Z) : Z :=
  let y' := if m <=? 2 then y - 1 else y in
  let era := y' / 400 in
  let yoe := y' - era * 400 in
  let mp := if 2 <? m then m - 3 else m + 9 in
  let doy := (153 * mp + 2) / 5 + d - 1 in
  let doe := yoe * 365 + yoe / 4 - yoe / 100 + doy in
  era * 146097 + doe - 719468.

Definition digits_value (s : string) : option Z :=
  let '(v, n, rest) := read_digits s 0 0%nat in
  match rest with
  | EmptyString => if (n =? 0)%nat then None else Some v
  | _ => None
  end.

Definition iso_dates (c : cell) : option Z :=
  match c with
  | Str s =>
      if (String.length s =? 10)%nat
         && String.eqb (substring 4 1 s) "-" && String.eqb (substring 7 1 s) "-"
      then
        match digits_value (substring 0 4 s), digits_value (substring 5 2 s),
              digits_value (substring 8 2 s) with
        | Some y, Some m, Some d =>
            if (1 <=? m) && (m <=? 12) && (1 <=? d) && (d <=? 31)
            then Some (days_from_civil y m d * 86400 * 1000000000)
            else None
        | _, _, _ => None
        end
      else None
  | Num _ => None
  end.

Definition repr_unused (q : Q) : string := "".

(* ===================================================================== *)
(** ** Sample rows *)
(* ===================================================================== *)

(** A converted row with the given id, email, salary and dates; the
    other fields are the same in every sample. *)
Definition sample (id : Z) (mail : cell) (sal : float64) (hired left : timestamp) :
  TypedRow unit :=
  mkRow (Num (Fin (inject_Z id))) (Str "Thandi") (Str "Mokoena") mail
        (Str "Female") (Str "Finance") (Str "ZAR") (Str "South Africa")
        (Str "Gauteng") (Str "Pretoria") sal (Fin 7) hired left tt.

(** A raw row with the given email, salary, manager id and dates. *)
Definition raw_sample (mail sal mgr hired left : cell) : RawRow :=
  mkRow (Num (Fin 42)) (Str "Thandi") (Str "Mokoena") mail
        (Str "Female") (Str "Finance") (Str "ZAR") (Str "South Africa")
        (Str "Gauteng") (Str "Pretoria") sal mgr hired left tt.

(** The email [a], line feed, [@b.c]. *)
Definition two_line_email : string := "a" ++ String line_feed "@b.c".

(** A small raw table and what [clean_strings] makes of it. *)
Definition untidy_table : list RawRow :=
  [mkRow (Num (Fin 7)) (Str "  thandi ") (Str "MOKOENA") (Str " Thandi@Example.ORG")
         (Str "F ") (Str " H.R") (Str "R") (Str "ZA") (Str "KZN") (Str "cape  town")
         (Str "4,500.00") (Num NaN) (Str "2021-05-01") (Num NaN) tt;
   mkRow (Num (Fin 8)) (Num NaN) (Str "o'neil") (Num NaN)
         (Str "M") (Str "IT") (Str "$") (Str "USA") (Num NaN) (Str " durban ")
         (Str "5200") (Num (Fin 7)) (Str " 2020-01-01 ") (Num NaN) tt].


(* ===================================================================== *)
(** ** What [remove_duplicates] reports *)
(* ===================================================================== *)

(** [df.duplicated(subset=['employee_id'], keep=False)]: a row is marked
    when its id is the id of another row, before it or after it. *)
Fixpoint duplicated_all_from (seen keys : list cell) : list bool :=
  match keys with
  | [] => []
  | k :: keys' =>
      (existsb (same_key k) seen || existsb (same_key k) keys')
        :: duplicated_all_from (k :: seen) keys'
  end.

(** [duplicates = df[df.duplicated(subset=['employee_id'], keep=False)]],
    whose length the script prints as the number of duplicate records. *)
Definition duplicates {N D V : Type} (df : list (Row N D V)) : list (Row N D V) :=
  select (duplicated_all_from [] (map employee_id df)) df.

(** [df['employee_id'].duplicated().sum()], printed first. *)
Definition duplicate_ids {N D V : Type} (df : list (Row N D V)) : nat :=
  count_occ bool_dec (duplicated (map employee_id df)) true.

(** [initial_count - final_count], printed as the number of records
    removed. *)
Definition removed_count {N D V : Type} (df : list (Row N D V)) : nat :=
  (List.length df - List.length (remove_duplicates df))%nat.

(** No two rows of the table have the same id. *)
Definition distinct_ids {N D V : Type} (df : list (Row N D V)) : Prop :=
  ForallOrdPairs (fun a b => same_key (employee_id a) (employee_id b) = false) df.

(** Whether some row of the table has the id [k]. *)
Definition has_id {N D V : Type} (k : cell) (df : list (Row N D V)) : bool :=
  existsb (fun r => same_key k (employee_id r)) df.

(* ===================================================================== *)
(** ** The pipeline row by row, and the report on missing values *)
(* ===================================================================== *)

(** Steps 5 to 9 on one row. *)
Definition standardize_row {N D V : Type} (float_repr : Q -> string) (r : Row N D V) :
  Row N D V :=
  set_state (replace state_mapping (state r))
    (set_country (replace country_mapping (country r))
       (set_currency (replace currency_map (currency r))
          (set_department
             (replace dept_mapping (Str (strip (astype_str float_repr (department r)))))
             (set_gender (replace gender_mapping (gender r)) r)))).

(** Step 10 on one row. *)
Definition flag_row {N D V : Type} (r : Row N D V) : Row N D bool :=
  set_email_valid (str_match email_pattern false (email r)) r.




Definition isnull_date (t : timestamp) : bool :=
  match t with None => true | Some _ => false end.

(** [sum()] of a column of booleans. *)
Definition count_where {R : Type} (p : R -> bool) (df : list R) : nat :=
  List.length (filter p df).



(** The table [main] hands to [analyze_missing_values]: steps 3 to 12. *)
Definition validated_table (float_repr : Q -> string) (parse_datetime : cell -> option Z)
  (df : list RawRow) : result (list (TypedRow bool)) :=
  df <- clean_strings float_repr df ;;
  df <- convert_data_types float_repr parse_datetime df ;;
  let df := standardize_gender df in
  let df := standardize_department float_repr df in
  let df := standardize_currency df in
  let df := standardize_country df in
  let df := standardize_state df in
  df <- validate_emails df ;;
  let df := fix_negative_salaries df in
  Ok (validate_dates df).

(** What the pipeline makes of [untidy_table]. *)
Definition tidy_output : list (TypedRow bool) :=
  [mkRow (Num (Fin 7)) (Str "Thandi") (Str "Mokoena") (Str "thandi@example.org")
         (Str "Female") (Str "Human Resource") (Str "ZAR") (Str "South Africa")
         (Str "KwaZulu-Natal") (Str "Cape  Town")
         (Fin (450000 # 100)) NaN (Some 1619827200000000000) NaT true;
   mkRow (Num (Fin 8)) (Str "Nan") (Str "O'Neil") (Str "nan")
         (Str "Male") (Str "Information Technology") (Str "USD")
         (Str "United States") (Str "nan") (Str "Durban")
         (Fin 5200) (Fin 7) (Some 1577836800000000000) NaT false].



(* ===================================================================== *)
(** ** Step 16: the table that is exported *)
(* ===================================================================== *)

(** [df_export = df.drop(columns=['email_valid'], errors='ignore')]: the
    table [export_cleaned_data] writes, without the flag. *)
Definition export_table {N D V : Type} (df : list (Row N D V)) : list (Row N D unit) :=
  map (fun r => set_email_valid tt r) df.

(* ===================================================================== *)
(** ** The script [clean_employee_data.py] *)
(* ===================================================================== *)

(** The two tables of the script, as it writes them. *)
Definition script_department_mapping : mapping :=
  [("HR", "Human Resource"); ("H.R", "Human Resource");
   ("Human Resources", "Human Resource"); ("IT", "Information Technology");
   ("Ops", "Operations"); ("Eng", "Engineering"); ("FIN", "Finance");
   ("sales", "Sales")].

Definition script_currency_mapping : mapping :=
  [("R", "ZAR"); ("ZAR", "ZAR"); ("$", "USD"); ("USD", "USD"); ("£", "GBP");
   ("Â£", "GBP")].

(** What the script does to the table between reading and writing it:
    [df['department'] = df['department'].replace({...})], then the same
    for [currency]. *)
Definition clean_employee_data {N D V : Type} (df : list (Row N D V)) : list (Row N D V) :=
  let df := map (fun r => set_department
                            (replace script_department_mapping (department r)) r) df in
  map (fun r => set_currency (replace script_currency_mapping (currency r)) r) df.

(* ===================================================================== *)
(** ** The script [hr_kpis.py] *)
(* ===================================================================== *)

(** KPI 1.  A cell of the column [is_active] is taken by what the two
    comparisons of the script make of it: [Some true] compares equal to
    [True], [Some false] compares equal to [False], and [None] compares
    equal to neither (a missing value does).
    [df[df['is_active'] == True].shape[0]] counts the rows that compare
    equal to [True]. *)
Definition active_employees (is_active : list (option bool)) : nat :=
  count_where (fun a => match a with Some true => true | _ => false end) is_active.

Definition inactive_employees (is_active : list (option bool)) : nat :=
  count_where (fun a => match a with Some false => true | _ => false end) is_active.

(** The three counts the script writes.  The attrition rate is
    [round(inactive / total * 100, 2)], a rounded float that is not
    modelled; its division raises [ZeroDivisionError] when the table
    has no row, which is the [None] here. *)
Definition overall_kpis (is_active : list (option bool)) : option (nat * nat * nat) :=
  let total_employees := List.length is_active in
  let active := active_employees is_active in
  let inactive := inactive_employees is_active in
  if (total_employees =? 0)%nat then None
  else Some (total_employees, active, inactive).

(** KPI 2.  [groupby('hire_year').size()]: one line for each year that
    occurs, in ascending order of the year, with the number of rows of
    that year; rows without a year are left out.  [tally] counts one
    more row of year [y]. *)
Fixpoint tally (y : Z) (sizes : list (Z * nat)) : list (Z * nat) :=
  match sizes with
  | [] => [(y, 1%nat)]
  | (y', n) :: rest =>
      if y <? y' then (y, 1%nat) :: sizes
      else if y =? y' then (y', S n) :: rest
      else (y', n) :: tally y rest
  end.

(** A row without a year is in no group. *)
Definition tally_row (sizes : list (Z * nat)) (y : option Z) : list (Z * nat) :=
  match y with
  | Some y => tally y sizes
  | None => sizes
  end.

Definition group_sizes (years : list (option Z)) : list (Z * nat) :=
  fold_left tally_row years [].

(** [df['hire_year'] = df['hire_date'].dt.year], then the sizes of the
    groups; [year_of] is the calendar year of a timestamp. *)
Definition hire_years (year_of : Z -> Z) {N V : Type} (df : list (Row N timestamp V)) :
  list (option Z) :=
  map (fun r => option_map year_of (hire_date r)) df.

Definition hires_by_year (year_of : Z -> Z) {N V : Type} (df : list (Row N timestamp V)) :
  list (Z * nat) :=
  group_sizes (hire_years year_of df).

(** The number of rows of a table hired in the year [y]. *)
Definition hired_in (year_of : Z -> Z) {N V : Type} (y : Z) (df : list (Row N timestamp V)) :
  nat :=
  count_where (fun r => match hire_date r with
                        | Some t => year_of t =? y
                        | None => false
                        end) df.

(** The rows counted for the year [y] in a list of group sizes. *)
Fixpoint count_for (y : Z) (sizes : list (Z * nat)) : nat :=
  match sizes with
  | [] => 0%nat
  | (y', n) :: rest => Nat.add (if y =? y' then n else 0%nat) (count_for y rest)
  end.

(** The years of the lines ascend strictly. *)
Fixpoint ascending (sizes : list (Z * nat)) : Prop :=
  match sizes with
  | [] => True
  | (y, _) :: rest =>
      match rest with
      | [] => True
      | (y', _) :: _ => y < y'
      end /\ ascending rest
  end.

(** A year of the Gregorian calendar from a timestamp, for the worked
    example: the year of the day the nanoseconds fall in. *)
Definition year_of_timestamp (t : Z) : Z :=
  let z := t / (86400 * 1000000000) + 719468 in
  let era := z / 146097 in
  let doe := z - era * 146097 in
  let yoe := (doe - doe / 1460 + doe / 36524 - doe / 146096) / 365 in
  let doy := doe - (365 * yoe + yoe / 4 - yoe / 100) in
  let mp := (5 * doy + 2) / 153 in
  let m := if mp <? 10 then mp + 3 else mp - 9 in
  yoe + era * 400 + (if m <=? 2 then 1 else 0).

(** The rows counted in all the lines together. *)
Definition total_hires (sizes : list (Z * nat)) : nat :=
  fold_right (fun line acc => (snd line + acc)%nat) 0%nat sizes.

(** The rows of a list of years that have the year [y], and those that
    have a year at all. *)
Definition rows_of_year (y : Z) (years : list (option Z)) : nat :=
  count_where (fun o => match o with Some y' => y' =? y | None => false end) years.

Definition rows_with_year (years : list (option Z)) : nat :=
  count_where (fun o => match o with Some _ => true | None => false end) years.
(* ===================================================================== *)
(** * Properties *)
(* ===================================================================== *)

(** ** Text *)









Lemma lstrip_no_leading_space (s : string) : starts_with_space (lstrip s) = false.
Proof.
  induction s as [|c t IH]; simpl; [reflexivity|].
  destruct (isspace c) eqn:E; [exact IH|]. simpl. exact E.
Qed.

Lemma rstrip_no_trailing_space (s : string) : ends_with_space (rstrip s) = false.
Proof.
  induction s as [|c t IH]; simpl; [reflexivity|].
  destruct (rstrip t) as [|d r] eqn:R.
  - destruct (isspace c) eqn:E; simpl; [reflexivity | exact E].
  - exact IH.
Qed.

Lemma rstrip_keeps_start (s : string) :
  starts_with_space s = false -> starts_with_space (rstrip s) = false.
Proof.
  destruct s as [|c t]; simpl; [reflexivity|]. intros E.
  destruct (rstrip t); [rewrite E|]; simpl; exact E.
Qed.

Lemma strip_trimmed (s : string) : trimmed (strip s) = true.
Proof.
  unfold trimmed, strip.
  rewrite rstrip_no_trailing_space.
  rewrite rstrip_keeps_start by apply lstrip_no_leading_space.
  reflexivity.
Qed.

Lemma lstrip_fixed (s : string) : starts_with_space s = false -> lstrip s = s.
Proof. destruct s as [|c t]; simpl; [reflexivity|]. intros ->. reflexivity. Qed.

Lemma rstrip_fixed (s : string) : ends_with_space s = false -> rstrip s = s.
Proof.
  induction s as [|c t IH]; [reflexivity|].
  intros E. cbn [rstrip]. destruct t as [|d t'].
  - simpl in *. rewrite E. reflexivity.
  - rewrite IH by exact E. reflexivity.
Qed.

Lemma trimmed_strip (s : string) : trimmed s = true -> strip s = s.
Proof.
  unfold trimmed, strip. intros H.
  apply andb_true_iff in H. destruct H as [H1 H2].
  apply negb_true_iff in H1. apply negb_true_iff in H2.
  rewrite lstrip_fixed by exact H1. apply rstrip_fixed. exact H2.
Qed.

Lemma strip_idempotent (s : string) : strip (strip s) = strip s.
Proof. apply trimmed_strip, strip_trimmed. Qed.







(** ** Regular expressions *)

Lemma append_nil_r (s : string) : s ++ "" = s.
Proof. induction s as [|c t IH]; simpl; [reflexivity | now rewrite IH]. Qed.

Lemma append_assoc (a b c : string) : (a ++ b) ++ c = a ++ (b ++ c).
Proof. induction a as [|x a IH]; simpl; [reflexivity | now rewrite IH]. Qed.

Lemma append_eq_nil (a b : string) : a ++ b = "" -> a = "" /\ b = "".
Proof. destruct a; simpl; [auto | discriminate]. Qed.

Lemma matches_nil_nullable (r : regex) (s : string) :
  matches r s -> s = "" -> nullable r = true.
Proof.
  induction 1 as [ | | | r1 r2 s1 s2 _ IH1 _ IH2 | r1 r2 s _ IH | r1 r2 s _ IH | | ];
    intros E; simpl; try reflexivity; try discriminate.
  - apply append_eq_nil in E. destruct E as [E1 E2].
    now rewrite IH1, IH2.
  - now rewrite IH.
  - rewrite IH by assumption. apply orb_true_r.
Qed.

Lemma nullable_matches_nil (r : regex) : nullable r = true -> matches r "".
Proof.
  induction r as [ | | | | r1 IH1 r2 IH2 | r1 IH1 r2 IH2 | ]; simpl; intros H;
    try discriminate.
  - constructor.
  - apply andb_true_iff in H. destruct H as [H1 H2].
    change "" with ("" ++ ""). constructor; auto.
  - apply orb_true_iff in H. destruct H as [H|H];
      [apply m_alt_l | apply m_alt_r]; auto.
  - constructor.
Qed.

Lemma matches_deriv (r : regex) (w : string) :
  matches r w -> forall c s, w = String c s -> matches (deriv c r) s.
Proof.
  induction 1 as [ | d | d Hd | r1 r2 s1 s2 H1 IH1 H2 IH2 | r1 r2 s H IH
                 | r1 r2 s H IH | r1 | r1 s1 s2 H1 IH1 H2 IH2 ];
    intros c z E; simpl.
  - discriminate.
  - injection E as -> <-. rewrite Ascii.eqb_refl. constructor.
  - injection E as -> <-.
    destruct (Ascii.eqb_spec c line_feed); [contradiction | constructor].
  - destruct s1 as [|x s1'].
    + simpl in E. rewrite (matches_nil_nullable _ _ H1 eq_refl).
      apply m_alt_r. now apply IH2.
    + simpl in E. injection E as -> <-.
      specialize (IH1 _ _ eq_refl).
      destruct (nullable r1); [apply m_alt_l|]; now constructor.
  - apply m_alt_l. now apply IH.
  - apply m_alt_r. now apply IH.
  - discriminate.
  - destruct s1 as [|x s1'].
    + simpl in E. now apply IH2.
    + simpl in E. injection E as -> <-. constructor; [now apply IH1 | exact H2].
Qed.

Lemma deriv_matches (c : ascii) (r : regex) :
  forall s, matches (deriv c r) s -> matches r (String c s).
Proof.
  induction r as [ | | d | | r1 IH1 r2 IH2 | r1 IH1 r2 IH2 | r1 IH1 ];
    simpl; intros s H.
  - inversion H.
  - inversion H.
  - destruct (Ascii.eqb_spec c d); inversion H; subst. constructor.
  - destruct (Ascii.eqb_spec c line_feed); inversion H; subst. now constructor.
  - assert (Hcat : forall s, matches (Cat (deriv c r1) r2) s ->
                             matches (Cat r1 r2) (String c s)).
    { intros s0 H0. inversion H0; subst.
      change (String c (s1 ++ s2)) with (String c s1 ++ s2).
      constructor; auto. }
    destruct (nullable r1) eqn:N; [|now apply Hcat].
    inversion H; subst; [now apply Hcat|].
    change (String c s) with ("" ++ String c s).
    constructor; [now apply nullable_matches_nil | now apply IH2].
  - inversion H; subst; [apply m_alt_l | apply m_alt_r]; auto.
  - inversion H; subst.
    change (String c (s1 ++ s2)) with (String c s1 ++ s2).
    constructor; auto.
Qed.

(** [re_match] finds a match exactly when the text starts with one. *)
Lemma re_match_spec (s : string) : forall r,
  re_match r s = true <-> exists w rest, s = w ++ rest /\ matches r w.
Proof.
  induction s as [|c t IH]; intros r; simpl.
  - rewrite orb_false_r. split.
    + intros N. exists "", "". split; [reflexivity | now apply nullable_matches_nil].
    + intros (w & rest & E & M). symmetry in E. apply append_eq_nil in E.
      destruct E as [-> _]. now apply (matches_nil_nullable r "").
  - split.
    + intros H. apply orb_true_iff in H. destruct H as [N|H].
      * exists "", (String c t). split; [reflexivity | now apply nullable_matches_nil].
      * apply IH in H. destruct H as (w & rest & -> & M).
        exists (String c w), rest. split; [reflexivity | now apply deriv_matches].
    + intros (w & rest & E & M). apply orb_true_iff.
      destruct w as [|x w'].
      * left. now apply (matches_nil_nullable r "").
      * right. simpl in E. injection E as <- ->.
        apply IH. exists w', rest. split; [reflexivity|].
        now apply (matches_deriv r (String c w')).
Qed.

Lemma no_line_feed_app (a b : string) :
  no_line_feed (a ++ b) = no_line_feed a && no_line_feed b.
Proof.
  induction a as [|c a IH]; simpl; [reflexivity|].
  rewrite IH. apply andb_assoc.
Qed.

Lemma matches_star_dot (w : string) :
  matches (Star Dot) w <-> no_line_feed w = true.
Proof.
  split.
  - intros H. remember (Star Dot) as r eqn:R.
    induction H as [ | | | | | | | r1 s1 s2 H1 _ H2 IH2 ]; try discriminate.
    + reflexivity.
    + injection R as ->. rewrite no_line_feed_app, IH2 by reflexivity.
      inversion H1 as [ | | d Hd | | | | | ]; subst. simpl.
      destruct (Ascii.eqb_spec d line_feed); [contradiction | reflexivity].
  - induction w as [|c t IH]; simpl; intros H; [constructor|].
    apply andb_true_iff in H. destruct H as [Hc Ht].
    change (String c t) with (String c "" ++ t).
    constructor; [|now apply IH].
    constructor. intros ->. now rewrite Ascii.eqb_refl in Hc.
Qed.

Lemma matches_plus_dot (w : string) :
  matches (Plus Dot) w <-> one_line w = true.
Proof.
  unfold Plus. split.
  - intros H. inversion H as [ | | | r1 r2 s1 s2 H1 H2 | | | | ]; subst.
    inversion H1 as [ | | d Hd | | | | | ]; subst. simpl.
    apply matches_star_dot in H2. rewrite H2.
    destruct (Ascii.eqb_spec d line_feed); [contradiction | reflexivity].
  - destruct w as [|c t]; simpl; [discriminate|]. intros H.
    apply andb_true_iff in H. destruct H as [Hc Ht].
    change (String c t) with (String c "" ++ t).
    constructor; [|now apply matches_star_dot].
    constructor. intros ->. now rewrite Ascii.eqb_refl in Hc.
Qed.

(** The texts [email_pattern] matches in full. *)
Lemma matches_email_pattern (w : string) :
  matches email_pattern w <->
  exists p t u, w = p ++ "@" ++ t ++ "." ++ u /\
                one_line p = true /\ one_line t = true /\ one_line u = true.
Proof.
  unfold email_pattern. split.
  - intros H.
    inversion H as [ | | | ? ? p w1 Hp H1 | | | | ]; subst.
    inversion H1 as [ | | | ? ? a w2 Ha H2 | | | | ]; subst.
    inversion H2 as [ | | | ? ? t w3 Ht H3 | | | | ]; subst.
    inversion H3 as [ | | | ? ? b u Hb Hu | | | | ]; subst.
    inversion Ha; subst. inversion Hb; subst.
    exists p, t, u. repeat split; try now apply matches_plus_dot.
  - intros (p & t & u & -> & Hp & Ht & Hu).
    constructor; [now apply matches_plus_dot|].
    change ("@" ++ t ++ "." ++ u) with (String "@" "" ++ (t ++ String "." "" ++ u)).
    constructor; [constructor|].
    constructor; [now apply matches_plus_dot|].
    constructor; [constructor | now apply matches_plus_dot].
Qed.

(** What [str.match(email_pattern)] accepts: the text starts with a
    one-line non-empty prefix, [@], a one-line non-empty text, [.] and
    one more character that is no line feed. *)
Lemma re_match_email_pattern (s : string) :
  re_match email_pattern s = true <->
  exists p t c rest, s = p ++ "@" ++ t ++ "." ++ String c rest /\
                     one_line p = true /\ one_line t = true /\ c <> line_feed.
Proof.
  rewrite re_match_spec. split.
  - intros (w & rest & -> & M). apply matches_email_pattern in M.
    destruct M as (p & t & u & -> & Hp & Ht & Hu).
    destruct u as [|c u']; [discriminate|].
    exists p, t, c, (u' ++ rest). repeat split; try assumption.
    + repeat (rewrite append_assoc; simpl). reflexivity.
    + simpl in Hu. apply andb_true_iff in Hu. destruct Hu as [Hc _].
      intros ->. now rewrite Ascii.eqb_refl in Hc.
  - intros (p & t & c & rest & -> & Hp & Ht & Hc).
    exists (p ++ "@" ++ t ++ "." ++ String c ""), rest. split.
    + repeat (rewrite append_assoc; simpl). reflexivity.
    + apply matches_email_pattern. exists p, t, (String c "").
      repeat split; try assumption. simpl.
      destruct (Ascii.eqb_spec c line_feed); [contradiction | reflexivity].
Qed.

(** On a text without line feed the pattern is the structure the
    specification describes. *)
Lemma re_match_email_structure (s : string) :
  no_line_feed s = true ->
  (re_match email_pattern s = true <-> email_structure s).
Proof.
  intros L. rewrite re_match_email_pattern. unfold email_structure. split.
  - intros (p & t & c & rest & -> & Hp & Ht & Hc).
    exists p, t, (String c rest). repeat split; try discriminate.
    + intros ->. discriminate.
    + intros ->. discriminate.
  - intros (p & t & u & -> & Hp & Ht & Hu).
    rewrite !no_line_feed_app in L.
    repeat (apply andb_true_iff in L; destruct L as [?L L]).
    destruct u as [|c u']; [contradiction|].
    exists p, t, c, u'. repeat split.
    + destruct p; [contradiction | assumption].
    + destruct t; [contradiction | assumption].
    + simpl in L. apply andb_true_iff in L. destruct L as [Hc _].
      intros ->. now rewrite Ascii.eqb_refl in Hc.
Qed.

(** ** Step 10: [validate_emails] *)

Lemma validate_emails_rows {N D V : Type} (df : list (Row N D V)) (out : list (Row N D bool)) :
  validate_emails df = Ok out ->
  out = map (fun r => set_email_valid (str_match email_pattern false (email r)) r) df.
Proof.
  unfold validate_emails, str_accessor.
  destruct (is_object (map email df)); simpl; intros E; [|discriminate].
  now injection E as <-.
Qed.

Lemma Forall2_map_r {A B : Type} (R : A -> B -> Prop) (f : A -> B) (l : list A) :
  (forall a, In a l -> R a (f a)) -> Forall2 R l (map f l).
Proof.
  induction l as [|a l IH]; simpl; intros H; constructor.
  - apply H. now left.
  - apply IH. intros b Hb. apply H. now right.
Qed.

(** C4, as the code has it.  When [validate_emails] returns, the output
    has the rows of the input in their order, each with nothing but the
    flag [email_valid] added (so no row is dropped, whatever its flag);
    the flag is true exactly when the email is a text that starts with a
    non-empty prefix without line feed, then [@], then a non-empty text
    without line feed, then [.], then a character that is no line feed;
    for an email without line feed that is exactly the structure
    "non-empty prefix, [@], non-empty text, [.], non-empty suffix"; and
    a row whose email is [not-an-email] is in the output with the flag
    false. *)
Theorem validate_emails_flags {N D V : Type}
  (df : list (Row N D V)) (out : list (Row N D bool)) :
  validate_emails df = Ok out ->
  Forall2 (fun r r' =>
             r' = set_email_valid (email_valid r') r /\
             (email_valid r' = true <->
              exists s p t c rest,
                email r = Str s /\
                s = p ++ "@" ++ t ++ "." ++ String c rest /\
                one_line p = true /\ one_line t = true /\ c <> line_feed) /\
             (forall s, email r = Str s -> no_line_feed s = true ->
                        (email_valid r' = true <-> email_structure s)) /\
             (email r = Str "not-an-email" -> email_valid r' = false))
          df out.
Proof.
  intros H. rewrite (validate_emails_rows df out H).
  apply Forall2_map_r. intros r _. cbn [email_valid set_email_valid].
  split; [reflexivity|]. split; [|split].
  - unfold str_match. destruct (email r) as [s|x].
    + rewrite re_match_email_pattern. split.
      * intros (p & t & c & rest & Hs). now exists s, p, t, c, rest.
      * intros (s' & p & t & c & rest & E & Hs). injection E as <-.
        now exists p, t, c, rest.
    + split; [discriminate|]. intros (s & p & t & c & rest & E & _). discriminate.
  - intros s -> L. simpl. now apply re_match_email_structure.
  - intros ->. reflexivity.
Qed.

(** The theorem at a table of two rows, the second with the email
    [not-an-email]. *)
Lemma validate_emails_flags_witness :
  Forall2 (fun r r' =>
             r' = set_email_valid (email_valid r') r /\
             (email_valid r' = true <->
              exists s p t c rest,
                email r = Str s /\
                s = p ++ "@" ++ t ++ "." ++ String c rest /\
                one_line p = true /\ one_line t = true /\ c <> line_feed) /\
             (forall s, email r = Str s -> no_line_feed s = true ->
                        (email_valid r' = true <-> email_structure s)) /\
             (email r = Str "not-an-email" -> email_valid r' = false))
          [sample 1 (Str "thandi@example.org") (Fin 1) None None;
           sample 2 (Str "not-an-email") (Fin 1) None None]
          [set_email_valid true (sample 1 (Str "thandi@example.org") (Fin 1) None None);
           set_email_valid false (sample 2 (Str "not-an-email") (Fin 1) None None)].
Proof.
  apply (validate_emails_flags
           [sample 1 (Str "thandi@example.org") (Fin 1) None None;
            sample 2 (Str "not-an-email") (Fin 1) None None]).
  reflexivity.
Defined.

(** C4 as stated fails on an email with a line feed before the [@]: the
    text has the structure, and the flag is false. *)
Lemma validate_emails_line_feed :
  validate_emails [sample 1 (Str two_line_email) (Fin 1) None None]
  = Ok [set_email_valid false (sample 1 (Str two_line_email) (Fin 1) None None)]
  /\ email_structure two_line_email.
Proof.
  split; [reflexivity|].
  exists ("a" ++ String line_feed ""), "b", "c".
  repeat split; discriminate.
Qed.

(** ** Step 14: [remove_duplicates] *)

Lemma float_eqb_refl (x : float64) : x <> NaN -> float_eqb x x = true.
Proof.
  destruct x as [|b|q]; simpl; intros H.
  - contradiction.
  - apply Bool.eqb_reflx.
  - apply Qeq_bool_iff. reflexivity.
Qed.

Lemma float_eqb_sym (x y : float64) : float_eqb x y = float_eqb y x.
Proof.
  destruct x as [|a|p], y as [|b|q]; simpl; try reflexivity.
  - destruct a, b; reflexivity.
  - apply eq_true_iff_eq. rewrite !Qeq_bool_iff. split; intros H; now symmetry.
Qed.

Lemma float_eqb_trans (x y z : float64) :
  float_eqb x y = true -> float_eqb y z = true -> float_eqb x z = true.
Proof.
  destruct x as [|a|p], y as [|b|q], z as [|c|r]; simpl; try discriminate.
  - destruct a, b, c; simpl; auto.
  - rewrite !Qeq_bool_iff. intros H1 H2. now rewrite H1.
Qed.

Lemma same_key_refl (a : cell) : same_key a a = true.
Proof.
  destruct a as [s|[|b|q]]; simpl.
  - apply String.eqb_refl.
  - reflexivity.
  - apply Bool.eqb_reflx.
  - apply Qeq_bool_iff. reflexivity.
Qed.

Lemma same_key_sym (a b : cell) : same_key a b = same_key b a.
Proof.
  destruct a as [s|[|a|p]], b as [t|[|b|q]]; simpl; try reflexivity.
  - apply String.eqb_sym.
  - apply (float_eqb_sym (Inf a) (Inf b)).
  - apply (float_eqb_sym (Fin p) (Fin q)).
Qed.

Lemma same_key_trans (a b c : cell) :
  same_key a b = true -> same_key b c = true -> same_key a c = true.
Proof.
  destruct a as [s|[|a|p]], b as [t|[|b|q]], c as [u|[|c|r]]; simpl;
    try discriminate; auto.
  - rewrite !String.eqb_eq. congruence.
  - apply (float_eqb_trans (Inf a) (Inf b) (Inf c)).
  - apply (float_eqb_trans (Fin p) (Fin q) (Fin r)).
Qed.

Lemma same_key_false_l (a b c : cell) :
  same_key a b = true -> same_key c a = false -> same_key c b = false.
Proof.
  intros Hab Hca. destruct (same_key c b) eqn:E; [|reflexivity].
  rewrite <- Hca. symmetry. apply (same_key_trans c b a); [exact E|].
  now rewrite same_key_sym.
Qed.

Section Dedup.
Context {N D V : Type}.
Implicit Types (df : list (Row N D V)) (r : Row N D V) (seen : list cell).

Lemma keep_from_cons seen r df :
  keep_from seen (r :: df) =
  if existsb (same_key (employee_id r)) seen
  then keep_from (employee_id r :: seen) df
  else r :: keep_from (employee_id r :: seen) df.
Proof.
  unfold keep_from. simpl.
  destruct (existsb (same_key (employee_id r)) seen); reflexivity.
Qed.

Lemma keep_from_fresh seen df r :
  In r (keep_from seen df) -> existsb (same_key (employee_id r)) seen = false.
Proof.
  revert seen. induction df as [|a df IH]; intros seen H; [contradiction|].
  rewrite keep_from_cons in H.
  assert (Hrec : In r (keep_from (employee_id a :: seen) df) ->
                 existsb (same_key (employee_id r)) seen = false).
  { intros H'. apply IH in H'. simpl in H'.
    now apply orb_false_iff in H'. }
  destruct (existsb (same_key (employee_id a)) seen) eqn:E; [now apply Hrec|].
  destruct H as [<-|H]; [exact E | now apply Hrec].
Qed.

Lemma keep_from_distinct seen df :
  ForallOrdPairs (fun a b => same_key (employee_id a) (employee_id b) = false)
                 (keep_from seen df).
Proof.
  revert seen. induction df as [|a df IH]; intros seen; [constructor|].
  rewrite keep_from_cons.
  destruct (existsb (same_key (employee_id a)) seen); [apply IH|].
  constructor; [|apply IH].
  apply Forall_forall. intros b Hb. apply keep_from_fresh in Hb.
  simpl in Hb. apply orb_false_iff in Hb. destruct Hb as [Hb _].
  now rewrite same_key_sym.
Qed.

Lemma keep_from_first seen df k :
  existsb (same_key k) seen = false ->
  first_with_id k (keep_from seen df) = first_with_id k df.
Proof.
  unfold first_with_id.
  revert seen. induction df as [|a df IH]; intros seen Hk; [reflexivity|].
  rewrite keep_from_cons. simpl.
  destruct (same_key k (employee_id a)) eqn:Ea.
  - replace (existsb (same_key (employee_id a)) seen) with false.
    + simpl. now rewrite Ea.
    + symmetry. apply not_true_is_false. intros Hex.
      apply existsb_exists in Hex. destruct Hex as (x & Hx & Hax).
      assert (Hkx : same_key k x = true) by now apply (same_key_trans k (employee_id a) x).
      assert (existsb (same_key k) seen = true)
        by (apply existsb_exists; now exists x).
      congruence.
  - assert (Hk' : existsb (same_key k) (employee_id a :: seen) = false)
      by (simpl; now rewrite Ea, Hk).
    destruct (existsb (same_key (employee_id a)) seen); simpl;
      [|rewrite Ea]; now apply IH.
Qed.

Lemma Subseq_nil df : Subseq [] df.
Proof. induction df; constructor; assumption. Qed.

Lemma select_subseq (mask : list bool) df : Subseq (select mask df) df.
Proof.
  revert mask. induction df as [|a df IH]; intros [|b mask]; simpl.
  - constructor.
  - constructor.
  - apply Subseq_nil.
  - destruct b; constructor; apply IH.
Qed.

Lemma duplicated_from_length seen (keys : list cell) :
  List.length (duplicated_from seen keys) = List.length keys.
Proof.
  revert seen. induction keys as [|k keys IH]; intros seen; simpl;
    [reflexivity | now rewrite IH].
Qed.

Lemma existsb_rev {A : Type} (f : A -> bool) (l : list A) :
  existsb f (rev l) = existsb f l.
Proof.
  induction l as [|a l IH]; simpl; [reflexivity|].
  rewrite existsb_app, IH. simpl. rewrite orb_false_r. apply orb_comm.
Qed.

Lemma existsb_rev_map r (before : list (Row N D V)) seen :
  existsb (same_key (employee_id r)) (rev (map employee_id before) ++ seen)
  = id_among r before || existsb (same_key (employee_id r)) seen.
Proof.
  unfold id_among. rewrite existsb_app, existsb_rev.
  f_equal. induction before as [|a l IH]; simpl; [reflexivity | now rewrite IH].
Qed.

(** The mark of the row that comes after the rows [before]. *)
Lemma duplicated_from_nth seen (before : list (Row N D V)) r after :
  nth (List.length before)
      (duplicated_from seen (map employee_id (before ++ r :: after))) false
  = existsb (same_key (employee_id r)) (rev (map employee_id before) ++ seen).
Proof.
  revert seen. induction before as [|a l IH]; intros seen; simpl; [reflexivity|].
  rewrite IH. rewrite <- app_assoc. reflexivity.
Qed.

Lemma select_all (mask : list bool) df :
  List.length mask = List.length df ->
  count_occ bool_dec mask true = 0%nat ->
  select (map negb mask) df = df.
Proof.
  revert df. induction mask as [|b mask IH]; intros [|a df]; simpl;
    try discriminate; [reflexivity|].
  intros L C. destruct b; simpl in *.
  - destruct (bool_dec true true); [discriminate | contradiction].
  - destruct (bool_dec false true); [discriminate|].
    f_equal. apply IH; [now injection L | exact C].
Qed.

(** The test on the number of marked rows changes nothing: when no row
    is marked, dropping the marked rows returns the table. *)
Lemma remove_duplicates_drop df : remove_duplicates df = keep_from [] df.
Proof.
  unfold remove_duplicates, drop_duplicates, keep_from, duplicated.
  destruct (0 <? _)%nat eqn:E; [reflexivity|].
  apply Nat.ltb_ge in E. symmetry. apply select_all.
  - now rewrite duplicated_from_length, length_map.
  - lia.
Qed.

End Dedup.

(** C1.  After [remove_duplicates], no two rows have the same
    [employee_id]; for every id, the first record with that id in the
    output is the first record with that id in the input; the output is
    the input without some rows, the others in their order; and the row
    at a position of the input survives exactly when no row before it
    has its id. *)
Theorem remove_duplicates_keeps_first {N D V : Type} (df : list (Row N D V)) :
  ForallOrdPairs (fun a b => same_key (employee_id a) (employee_id b) = false)
                 (remove_duplicates df)
  /\ (forall k, first_with_id k (remove_duplicates df) = first_with_id k df)
  /\ Subseq (remove_duplicates df) df
  /\ exists survives : list bool,
       List.length survives = List.length df
       /\ remove_duplicates df = select survives df
       /\ forall (before : list (Row N D V)) r after,
            df = (before ++ r :: after)%list ->
            nth (List.length before) survives true = negb (id_among r before).
Proof.
  rewrite remove_duplicates_drop. split; [|split; [|split]].
  - apply keep_from_distinct.
  - intros k. now apply keep_from_first.
  - apply select_subseq.
  - exists (map negb (duplicated_from [] (map employee_id df))). split; [|split].
    + now rewrite length_map, duplicated_from_length, length_map.
    + reflexivity.
    + intros before r after ->.
      change true with (negb false). rewrite map_nth.
      rewrite duplicated_from_nth, existsb_rev_map. simpl.
      now rewrite orb_false_r.
Qed.

(** ** Results and tables *)

Lemma bind_ok {A B : Type} (m : result A) (k : A -> result B) (b : B) :
  bind m k = Ok b -> exists a, m = Ok a /\ k a = Ok b.
Proof. destruct m as [a|e]; simpl; [eauto | discriminate]. Qed.

Lemma traverse_ok {A B : Type} (f : A -> result B) (l : list A) (l' : list B) :
  traverse f l = Ok l' -> Forall2 (fun a b => f a = Ok b) l l'.
Proof.
  revert l'. induction l as [|a l IH]; simpl; intros l' H.
  - injection H as <-. constructor.
  - apply bind_ok in H. destruct H as (b & Hb & H).
    apply bind_ok in H. destruct H as (bs & Hbs & H).
    injection H as <-. constructor; auto.
Qed.


Lemma select_In {A : Type} (mask : list bool) (l : list A) (a : A) :
  In a (select mask l) -> In a l.
Proof.
  revert mask. induction l as [|x l IH]; intros [|b mask]; simpl; try contradiction.
  destruct b; simpl; intros H; [destruct H as [H|H]|]; eauto.
Qed.

Lemma remove_duplicates_In {N D V : Type} (df : list (Row N D V)) (r : Row N D V) :
  In r (remove_duplicates df) -> In r df.
Proof. rewrite remove_duplicates_drop. apply select_In. Qed.

Lemma filter_none {A : Type} (p : A -> bool) (l : list A) :
  (0 <? List.length (filter p l))%nat = false -> forall a, In a l -> p a = false.
Proof.
  intros H a Ha. apply Nat.ltb_ge in H.
  destruct (p a) eqn:E; [|reflexivity].
  assert (In a (filter p l)) by (apply filter_In; auto).
  destruct (filter p l); [contradiction | simpl in H; lia].
Qed.

(** The script corrects a column only when it has counted a row to
    correct; the correction alone gives the same table. *)
Lemma corrected_when_counted {A : Type} (p : A -> bool) (f : A -> A) (l : list A) :
  (if (0 <? List.length (filter p l))%nat then map (fun a => if p a then f a else a) l else l)
  = map (fun a => if p a then f a else a) l.
Proof.
  destruct (0 <? _)%nat eqn:E; [reflexivity|].
  rewrite <- (map_id l) at 1. apply map_ext_in.
  intros a Ha. now rewrite (filter_none p l E a Ha).
Qed.

(** ** Step 12: [validate_dates] *)

Lemma date_ltb_inverted {N V : Type} (r : Row N timestamp V) :
  date_ltb (exit_date r) (hire_date r) = true <-> dates_inverted r.
Proof.
  unfold dates_inverted, date_ltb. split.
  - destruct (exit_date r) as [e|], (hire_date r) as [h|]; try discriminate.
    intros H. exists e, h. repeat split. now apply Z.ltb_lt.
  - intros (e & h & -> & -> & H). now apply Z.ltb_lt.
Qed.

Lemma validate_dates_rows {N V : Type} (df : list (Row N timestamp V)) :
  validate_dates df =
  map (fun r => if date_ltb (exit_date r) (hire_date r) then set_exit_date NaT r else r) df.
Proof. unfold validate_dates. apply corrected_when_counted. Qed.

Lemma validate_dates_in_order {N V : Type} (df : list (Row N timestamp V)) :
  Forall dates_in_order (validate_dates df).
Proof.
  rewrite validate_dates_rows. apply Forall_forall. intros r' H.
  apply in_map_iff in H. destruct H as (r & <- & _).
  unfold dates_in_order.
  destruct (date_ltb (exit_date r) (hire_date r)) eqn:E; [discriminate|].
  intros e h He Hh. unfold date_ltb in E. rewrite He, Hh in E.
  apply Z.ltb_ge in E. exact E.
Qed.

Lemma cleaning_pipeline_tail (float_repr : Q -> string) (parse_datetime : cell -> option Z)
  (raw : list RawRow) (out : list (TypedRow bool)) :
  cleaning_pipeline float_repr parse_datetime raw = Ok out ->
  exists df : list (TypedRow bool),
    out = remove_duplicates (validate_dates (fix_negative_salaries df)).
Proof.
  unfold cleaning_pipeline. intros H.
  apply bind_ok in H. destruct H as (d1 & _ & H).
  apply bind_ok in H. destruct H as (d2 & _ & H).
  apply bind_ok in H. destruct H as (d3 & _ & H).
  injection H as <-. now exists d3.
Qed.

(** C2, as the code has it.  [validate_dates] resets the exit date of
    every row whose exit date is present and earlier than its hire date,
    and leaves every other row as it is; after [validate_dates] and
    [remove_duplicates], and so in every table the pipeline returns,
    a row whose exit date and hire date are both present has
    [exit_date >= hire_date]. *)
Theorem validate_dates_orders {N V : Type} (df : list (Row N timestamp V)) :
  Forall2 (fun r r' =>
             (dates_inverted r -> r' = set_exit_date NaT r) /\
             (~ dates_inverted r -> r' = r))
          df (validate_dates df)
  /\ Forall dates_in_order (remove_duplicates (validate_dates df))
  /\ forall float_repr parse_datetime raw out,
       cleaning_pipeline float_repr parse_datetime raw = Ok out ->
       Forall dates_in_order out.
Proof.
  split; [|split].
  - rewrite validate_dates_rows. apply Forall2_map_r. intros r _.
    destruct (date_ltb (exit_date r) (hire_date r)) eqn:E.
    + split; [reflexivity|]. intros H. exfalso. apply H. now apply date_ltb_inverted.
    + split; [|reflexivity]. intros H. apply date_ltb_inverted in H. congruence.
  - apply Forall_forall. intros r H. apply remove_duplicates_In in H.
    revert r H. apply Forall_forall. apply validate_dates_in_order.
  - intros fr pd raw out H. apply cleaning_pipeline_tail in H.
    destruct H as (d & ->).
    apply Forall_forall. intros r H. apply remove_duplicates_In in H.
    revert r H. apply Forall_forall. apply validate_dates_in_order.
Qed.

(** C2 as stated fails on a row whose hire date did not parse: the
    pipeline returns it with its exit date, and [exit_date >= hire_date]
    is false of it. *)
Lemma exit_date_without_hire_date :
  match cleaning_pipeline repr_unused iso_dates
          [raw_sample (Str "thandi@example.org") (Str "4500") (Str "7")
                      (Str "unknown") (Str "2020-01-01")]
  with
  | Ok out =>
      map (fun r => (hire_date r, exit_date r, date_geb (exit_date r) (hire_date r))) out
  | Raise _ => []
  end = [(NaT, Some 1577836800000000000, false)].
Proof. reflexivity. Qed.

(** ** Step 11: [fix_negative_salaries] *)

Lemma float_abs_fixed (x : float64) : float_ltb x zero = false -> float_abs x = x.
Proof.
  destruct x as [|[|]|[n d]]; simpl; try reflexivity; try discriminate.
  intros H. apply negb_false_iff in H. apply Qle_bool_iff in H.
  unfold Qle in H. simpl in H. unfold Qabs. f_equal. f_equal. lia.
Qed.



Lemma set_salary_same {D V : Type} (r : Row float64 D V) : set_salary (salary r) r = r.
Proof. destruct r; reflexivity. Qed.

Lemma fix_negative_salaries_rows {D V : Type} (df : list (Row float64 D V)) :
  fix_negative_salaries df =
  map (fun r => if float_ltb (salary r) zero
                then set_salary (float_abs (salary r)) r else r) df.
Proof.
  unfold fix_negative_salaries.
  rewrite <- (corrected_when_counted (fun r => float_ltb (salary r) zero)).
  destruct (0 <? _)%nat; [|reflexivity].
  apply map_ext. intros r.
  destruct (float_ltb (salary r) zero) eqn:E; [reflexivity|].
  rewrite (float_abs_fixed _ E). apply set_salary_same.
Qed.


Lemma Forall2_compose {A B C : Type} (P : A -> B -> Prop) (Q : B -> C -> Prop)
  (R : A -> C -> Prop) (la : list A) (lb : list B) (lc : list C) :
  (forall a b c, P a b -> Q b c -> R a c) ->
  Forall2 P la lb -> Forall2 Q lb lc -> Forall2 R la lc.
Proof.
  intros H HP. revert lc. induction HP as [|a b la lb Hab _ IH]; intros lc HQ;
    inversion HQ; subst; constructor; eauto.
Qed.



(** ** Step 4: [convert_data_types] *)



(** With [errors='raise'] the same value stops the conversion. *)
Lemma to_numeric_raise_unparseable :
  to_numeric errors_raise (Str "n/a") = Raise ValueError.
Proof. reflexivity. Qed.


Lemma convert_row_fields (float_repr : Q -> string) (parse_datetime : cell -> option Z)
  {V : Type} (r : Row cell cell V) (r' : Row float64 timestamp V) :
  convert_row float_repr parse_datetime r = Ok r' ->
  same_cells r r' /\
  to_numeric errors_coerce (Str (salary_text float_repr r)) = Ok (salary r') /\
  to_numeric errors_coerce (manager_id r) = Ok (manager_id r') /\
  to_datetime parse_datetime errors_coerce (hire_date r) = Ok (hire_date r') /\
  to_datetime parse_datetime errors_coerce (exit_date r) = Ok (exit_date r').
Proof.
  unfold convert_row. intros H.
  apply bind_ok in H. destruct H as (sal & Hs & H).
  apply bind_ok in H. destruct H as (mgr & Hm & H).
  apply bind_ok in H. destruct H as (hd & Hh & H).
  apply bind_ok in H. destruct H as (ed & He & H).
  injection H as <-. unfold same_cells. simpl. repeat split; assumption.
Qed.



(** ** Steps 5 to 9: category standardization *)

Lemma lookup_canonical (m : mapping) (k v : string) :
  lookup k m = Some v -> In v (canonical m).
Proof.
  induction m as [|[k' v'] m IH]; simpl; [discriminate|].
  destruct (String.eqb k k'); intros H; [injection H as ->; now left | right; auto].
Qed.


Lemma canonical_fixed_lookup (m : mapping) (v : string) :
  canonical_fixed m = true -> In v (canonical m) -> lookup v m = Some v.
Proof.
  unfold canonical_fixed. rewrite forallb_forall. intros H Hv.
  specialize (H v Hv). destruct (lookup v m) as [v'|]; [|discriminate].
  apply String.eqb_eq in H. now subst.
Qed.

Lemma replace_idempotent (m : mapping) (c : cell) :
  canonical_fixed m = true -> replace m (replace m c) = replace m c.
Proof.
  intros F. destruct c as [s|x]; simpl; [|reflexivity].
  destruct (lookup s m) as [v|] eqn:E; simpl.
  - now rewrite (canonical_fixed_lookup m v F (lookup_canonical m s v E)).
  - now rewrite E.
Qed.

Lemma mapping_tables_fixed : forallb canonical_fixed mapping_tables = true.
Proof. vm_compute. reflexivity. Qed.

Lemma dept_canonical_trimmed : forallb trimmed (canonical dept_mapping) = true.
Proof. vm_compute. reflexivity. Qed.

(** Standardizing the department of a value that already went through
    it changes nothing. *)
Lemma department_idempotent (float_repr : Q -> string) (c : cell) :
  let f c := replace dept_mapping (Str (strip (astype_str float_repr c))) in
  f (f c) = f c.
Proof.
  cbv beta zeta. remember (strip (astype_str float_repr c)) as t eqn:Et.
  assert (F : canonical_fixed dept_mapping = true) by (vm_compute; reflexivity).
  change (replace dept_mapping (Str t))
    with (match lookup t dept_mapping with Some v => Str v | None => Str t end).
  destruct (lookup t dept_mapping) as [v|] eqn:E; cbn [astype_str replace].
  - assert (Hv : In v (canonical dept_mapping)) by now apply (lookup_canonical _ t).
    assert (T : trimmed v = true)
      by (pose proof dept_canonical_trimmed as G; rewrite forallb_forall in G; now apply G).
    rewrite (trimmed_strip v T).
    now rewrite (canonical_fixed_lookup _ v F Hv).
  - rewrite Et, strip_idempotent, <- Et. now rewrite E.
Qed.

Section StandardizeFacts.
Context {N D V : Type}.
Variable float_repr : Q -> string.
Implicit Types (df : list (Row N D V)) (r : Row N D V).

(** What the five steps do to one row. *)
Lemma standardize_categories_rows df :
  standardize_categories float_repr df =
  map (fun r =>
         set_state (replace state_mapping (state r))
           (set_country (replace country_mapping (country r))
              (set_currency (replace currency_map (currency r))
                 (set_department
                    (replace dept_mapping
                       (Str (strip (astype_str float_repr (department r)))))
                    (set_gender (replace gender_mapping (gender r)) r))))) df.
Proof.
  unfold standardize_categories, standardize_state, standardize_country,
    standardize_currency, standardize_department, standardize_gender.
  rewrite !map_map. reflexivity.
Qed.

End StandardizeFacts.

(** C7.  Running the five standardization steps on a table that went
    through them returns the same table, and in each of the five mapping
    tables every canonical value maps to itself. *)
Theorem standardize_categories_idempotent {N D V : Type} (float_repr : Q -> string)
  (df : list (Row N D V)) :
  standardize_categories float_repr (standardize_categories float_repr df)
  = standardize_categories float_repr df
  /\ Forall (fun m => forall v, In v (canonical m) -> lookup v m = Some v) mapping_tables.
Proof.
  split.
  - rewrite !standardize_categories_rows, map_map. apply map_ext. intros r.
    pose proof mapping_tables_fixed as F. simpl in F.
    repeat (apply andb_true_iff in F; destruct F as [?F F]).
    destruct r; cbn [set_state set_country set_currency set_department set_gender
                     state country currency department gender].
    rewrite !replace_idempotent by assumption.
    now rewrite (department_idempotent float_repr).
  - apply Forall_forall. intros m Hm v Hv.
    apply canonical_fixed_lookup; [|exact Hv].
    pose proof mapping_tables_fixed as F. rewrite forallb_forall in F. now apply F.
Qed.



(** ** Step 3: [clean_strings] *)

Lemma get_set_same {V : Type} (c : column) (v : cell) (r : Row cell cell V) :
  get c (set c v r) = v.
Proof. destruct c; reflexivity. Qed.

Lemma get_set_other {V : Type} (c c' : column) (v : cell) (r : Row cell cell V) :
  c <> c' -> get c (set c' v r) = get c r.
Proof. destruct c, c'; intros H; try reflexivity; contradiction. Qed.

Lemma email_valid_set {V : Type} (c : column) (v : cell) (r : Row cell cell V) :
  email_valid (set c v r) = email_valid r.
Proof. destruct c; reflexivity. Qed.


Lemma all_columns_complete (c : column) : In c all_columns.
Proof. destruct c; simpl; tauto. Qed.

Lemma all_columns_NoDup : NoDup all_columns.
Proof.
  unfold all_columns.
  repeat (constructor; [simpl; intuition discriminate|]).
  constructor.
Qed.

Section Assign.
Context {V : Type}.
Variable f : cell -> cell.
Implicit Types (df : list (Row cell cell V)) (r : Row cell cell V) (cols : list column).

Lemma fold_assign cols df :
  fold_left (fun d col => assign col f d) cols df = map (assign_row f cols) df.
Proof.
  revert df. induction cols as [|a cols IH]; intros df; simpl.
  - symmetry. apply map_id.
  - rewrite IH. unfold assign. rewrite map_map. reflexivity.
Qed.

Lemma get_assign_row cols r c :
  NoDup cols ->
  get c (assign_row f cols r) =
  if in_dec column_eq_dec c cols then f (get c r) else get c r.
Proof.
  unfold assign_row. revert r. induction cols as [|a cols IH]; intros r ND; [reflexivity|].
  inversion ND as [|? ? Ha ND']; subst. cbn [fold_left]. rewrite IH by exact ND'.
  destruct (in_dec column_eq_dec c (a :: cols)) as [I|I];
    destruct (in_dec column_eq_dec c cols) as [I'|I'].
  - assert (c <> a) by (intros ->; contradiction).
    now rewrite get_set_other.
  - destruct I as [<-|I]; [|contradiction]. now rewrite get_set_same.
  - exfalso. apply I. now right.
  - rewrite get_set_other; [reflexivity|]. intros ->. apply I. now left.
Qed.

Lemma email_valid_assign_row cols r : email_valid (assign_row f cols r) = email_valid r.
Proof.
  unfold assign_row. revert r. induction cols as [|a cols IH]; intros r; [reflexivity|].
  cbn [fold_left]. rewrite IH. apply email_valid_set.
Qed.

End Assign.

Lemma column_assign_other {V : Type} (c c' : column) (f : cell -> cell)
  (df : list (Row cell cell V)) :
  c <> c' -> map (get c) (assign c' f df) = map (get c) df.
Proof.
  intros H. unfold assign. rewrite map_map. apply map_ext.
  intros r. now apply get_set_other.
Qed.

Lemma is_object_all_text {A : Type} (f : A -> string) (l : list A) :
  is_object (map (fun a => Str (f a)) l) = true.
Proof. destruct l; reflexivity. Qed.

Section CleanStrings.
Context {V : Type}.
Variable float_repr : Q -> string.
Variable df : list (Row cell cell V).


Lemma get_stripped (c : column) (r : Row cell cell V) :
  get c (stripped_row float_repr df r) =
  if object_column df c then Str (strip (astype_str float_repr (get c r))) else get c r.
Proof.
  unfold stripped_row. rewrite get_assign_row by (apply NoDup_filter, all_columns_NoDup).
  destruct (in_dec column_eq_dec c (filter (object_column df) all_columns)) as [I|I].
  - apply filter_In in I. destruct I as [_ ->]. reflexivity.
  - destruct (object_column df c) eqn:E; [|reflexivity].
    exfalso. apply I. apply filter_In. split; [apply all_columns_complete | exact E].
Qed.

Lemma is_object_stripped (c : column) :
  is_object (map (get c) (map (stripped_row float_repr df) df)) = object_column df c.
Proof.
  rewrite map_map.
  rewrite (map_ext _ _ (get_stripped c)).
  destruct (object_column df c) eqn:E.
  - apply (is_object_all_text (fun r => strip (astype_str float_repr (get c r)))).
  - exact E.
Qed.

Lemma get_cased_row (c : column) (r : Row cell cell V) :
  get c (cased_row r) =
  if in_dec column_eq_dec c cased_columns
  then str_method (letter_case c) (get c r)
  else get c r.
Proof. unfold cased_row. destruct c; reflexivity. Qed.

Lemma email_valid_cased_row (r : Row cell cell V) :
  email_valid (cased_row (stripped_row float_repr df r)) = email_valid r.
Proof.
  unfold cased_row. rewrite !email_valid_set. apply email_valid_assign_row.
Qed.

(** [clean_strings] returns exactly when the four columns it puts in
    title or lower case hold text. *)
Lemma clean_strings_cells :
  clean_strings float_repr df =
  if forallb (object_column df) cased_columns
  then Ok (map (fun r => cased_row (stripped_row float_repr df r)) df)
  else Raise AttributeError.
Proof.
  unfold clean_strings. rewrite fold_assign.
  change (fun c : column => is_object (map (get c) df)) with (object_column df).
  change (assign_row _ (filter (object_column df) all_columns)) with (stripped_row float_repr df).
  unfold str_accessor.
  change (map first_name) with (map (@get V col_first_name)).
  change (map last_name) with (map (@get V col_last_name)).
  change (map email) with (map (@get V col_email)).
  change (map city) with (map (@get V col_city)).
  rewrite !column_assign_other by discriminate.
  rewrite !is_object_stripped. cbn [forallb cased_columns].
  destruct (object_column df col_first_name); [|reflexivity].
  destruct (object_column df col_last_name); [|reflexivity].
  destruct (object_column df col_email); [|reflexivity].
  destruct (object_column df col_city); [|reflexivity].
  cbn [bind andb]. unfold assign, cased_row. rewrite !map_map. reflexivity.
Qed.

(** When it returns, every value is [cleaned]. *)
Lemma clean_strings_rows (out : list (Row cell cell V)) :
  clean_strings float_repr df = Ok out ->
  forallb (object_column df) cased_columns = true /\
  Forall2 (fun r r' =>
             In r df /\
             email_valid r' = email_valid r /\
             forall c, get c r' = cleaned float_repr (object_column df c) c (get c r))
          df out.
Proof.
  rewrite clean_strings_cells.
  destruct (forallb (object_column df) cased_columns) eqn:O; [|discriminate].
  intros H. injection H as <-. split; [reflexivity|].
  apply Forall2_map_r. intros r Hr. split; [exact Hr|].
  split; [apply email_valid_cased_row|].
  intros c. rewrite get_cased_row.
  rewrite get_stripped. unfold cleaned.
  destruct (in_dec column_eq_dec c cased_columns) as [I|I].
  - rewrite forallb_forall in O. rewrite (O c I). reflexivity.
  - destruct (object_column df c); [|reflexivity].
    destruct c; try reflexivity; exfalso; apply I; simpl; tauto.
Qed.

End CleanStrings.

Lemma is_object_has_text {V : Type} (df : list (Row cell cell V)) (r : Row cell cell V)
  (c : column) (s : string) :
  In r df -> get c r = Str s -> is_object (map (get c) df) = true.
Proof.
  intros Hr Hs. unfold is_object.
  assert (E : existsb is_str (map (get c) df) = true).
  { apply existsb_exists. exists (Str s). split; [|reflexivity].
    rewrite <- Hs. now apply in_map. }
  destruct (map (get c) df); [reflexivity | exact E].
Qed.




(** [clean_strings] does raise: a table whose [city] column holds no
    text has no [.str] accessor on it. *)
Lemma clean_strings_raises :
  clean_strings repr_unused
    [set col_city (Num NaN)
       (raw_sample (Str "a@b.c") (Str "1") (Str "2") (Str "2020-01-01") (Num NaN))]
  = Raise AttributeError.
Proof. reflexivity. Qed.

(** ** Missing values and trimmed variants through the pipeline *)

Lemma is_object_text_column {R : Type} (f : R -> cell) (l : list R) :
  Forall (fun r => exists s, f r = Str s) l -> is_object (map f l) = true.
Proof.
  intros H. destruct H as [|r l (s & Hs) _]; [reflexivity|].
  simpl. now rewrite Hs.
Qed.


(** The columns a raw row and a converted row share, read by name. *)
Lemma same_cells_email {N D V N' D' V' : Type} (r : Row N D V) (r' : Row N' D' V') :
  same_cells r r' -> email r' = email r.
Proof. unfold same_cells. tauto. Qed.





Lemma replace_found (m : mapping) (k v : string) :
  lookup k m = Some v -> replace m (Str k) = Str v.
Proof. simpl. now intros ->. Qed.

Lemma cleaned_text_column {V : Type} (float_repr : Q -> string)
  (df : list (Row cell cell V)) (r : Row cell cell V) (c : column) (s : string) :
  In r df -> get c r = Str s ->
  cleaned float_repr (is_object (map (get c) df)) c (get c r)
  = Str (letter_case c (strip s)).
Proof.
  intros Hr Hs. rewrite (is_object_has_text df r c s Hr Hs), Hs. reflexivity.
Qed.

(** C8, as the code has it.  [standardize_department] trims the value
    itself: a department that equals a mapped variant up to leading and
    trailing whitespace becomes the variant's canonical string.  The
    four other steps match the value as it stands.  The trimming of
    their columns is done by [clean_strings]: after [clean_strings] and
    [convert_data_types], the five steps map a value of any of the five
    columns that equals a mapped variant up to leading and trailing
    whitespace to the variant's canonical string. *)
Theorem standardize_trimmed_variants {N D V : Type} (float_repr : Q -> string)
  (parse_datetime : cell -> option Z) (df : list (Row N D V)) :
  Forall2 (fun r r' =>
             forall s v, department r = Str s ->
                         lookup (strip s) dept_mapping = Some v ->
                         department r' = Str v)
          df (standardize_department float_repr df)
  /\ Forall2 (fun r r' =>
                forall k v, gender r = Str k -> lookup k gender_mapping = Some v ->
                            gender r' = Str v)
             df (standardize_gender df)
  /\ Forall2 (fun r r' =>
                forall k v, currency r = Str k -> lookup k currency_map = Some v ->
                            currency r' = Str v)
             df (standardize_currency df)
  /\ Forall2 (fun r r' =>
                forall k v, country r = Str k -> lookup k country_mapping = Some v ->
                            country r' = Str v)
             df (standardize_country df)
  /\ Forall2 (fun r r' =>
                forall k v, state r = Str k -> lookup k state_mapping = Some v ->
                            state r' = Str v)
             df (standardize_state df)
  /\ forall (raw cleaned_df : list RawRow) typed,
       clean_strings float_repr raw = Ok cleaned_df ->
       convert_data_types float_repr parse_datetime cleaned_df = Ok typed ->
       Forall2 (fun r r' =>
                  (forall s v, gender r = Str s ->
                     lookup (strip s) gender_mapping = Some v -> gender r' = Str v) /\
                  (forall s v, department r = Str s ->
                     lookup (strip s) dept_mapping = Some v -> department r' = Str v) /\
                  (forall s v, currency r = Str s ->
                     lookup (strip s) currency_map = Some v -> currency r' = Str v) /\
                  (forall s v, country r = Str s ->
                     lookup (strip s) country_mapping = Some v -> country r' = Str v) /\
                  (forall s v, state r = Str s ->
                     lookup (strip s) state_mapping = Some v -> state r' = Str v))
               raw (standardize_categories float_repr typed).
Proof.
  split; [|split; [|split; [|split; [|split]]]].
  - apply Forall2_map_r. intros r _ s v Hs Hl. cbn [department set_department].
    rewrite Hs. cbn [astype_str]. now apply replace_found.
  - apply Forall2_map_r. intros r _ k v Hk Hl. cbn [gender set_gender].
    rewrite Hk. now apply replace_found.
  - apply Forall2_map_r. intros r _ k v Hk Hl. cbn [currency set_currency].
    rewrite Hk. now apply replace_found.
  - apply Forall2_map_r. intros r _ k v Hk Hl. cbn [country set_country].
    rewrite Hk. now apply replace_found.
  - apply Forall2_map_r. intros r _ k v Hk Hl. cbn [state set_state].
    rewrite Hk. now apply replace_found.
  - intros raw cleaned_df typed Hc Ht.
    apply clean_strings_rows in Hc. destruct Hc as [_ Hc].
    unfold object_column in Hc.
    apply traverse_ok in Ht. rewrite standardize_categories_rows.
    apply (Forall2_compose
             (fun (r r1 : RawRow) =>
                In r raw /\ email_valid r1 = email_valid r /\
                forall c, get c r1 =
                          cleaned float_repr (is_object (map (get c) raw)) c (get c r))
             (fun (r1 : RawRow) (r3 : TypedRow unit) =>
                exists r2, convert_row float_repr parse_datetime r1 = Ok r2 /\
                  r3 = set_state (replace state_mapping (state r2))
                         (set_country (replace country_mapping (country r2))
                            (set_currency (replace currency_map (currency r2))
                               (set_department
                                  (replace dept_mapping
                                     (Str (strip (astype_str float_repr (department r2)))))
                                  (set_gender (replace gender_mapping (gender r2)) r2)))))
             _ raw cleaned_df); [| exact Hc |].
    + intros r r1 r3 (Hr & _ & G) (r2 & H2 & ->).
      apply convert_row_fields in H2. destruct H2 as (S & _). unfold same_cells in S.
      destruct S as (_ & _ & _ & _ & Sg & Sd & Scu & Sco & Sst & _).
      cbn [set_state set_country set_currency set_department set_gender
           state country currency department gender].
      rewrite Sg, Sd, Scu, Sco, Sst.
      change (gender r1) with (get col_gender r1).
      change (department r1) with (get col_department r1).
      change (currency r1) with (get col_currency r1).
      change (country r1) with (get col_country r1).
      change (state r1) with (get col_state r1).
      rewrite !G.
      repeat split; intros s v Hs Hl.
      * rewrite (cleaned_text_column float_repr raw r col_gender s Hr Hs).
        now apply replace_found.
      * rewrite (cleaned_text_column float_repr raw r col_department s Hr Hs).
        cbn [astype_str letter_case]. rewrite strip_idempotent. now apply replace_found.
      * rewrite (cleaned_text_column float_repr raw r col_currency s Hr Hs).
        now apply replace_found.
      * rewrite (cleaned_text_column float_repr raw r col_country s Hr Hs).
        now apply replace_found.
      * rewrite (cleaned_text_column float_repr raw r col_state s Hr Hs).
        now apply replace_found.
    + clear Hc. induction Ht as [|r1 r2 l l' H12 _ IH]; simpl; constructor; eauto.
Qed.

(** C8 as stated fails on [standardize_gender]: the gender [ M ] with a
    blank on either side equals the mapped variant [M] up to leading
    and trailing whitespace, and the step leaves it as it is. *)
Lemma gender_variant_not_trimmed :
  map (fun r => gender r)
      (standardize_gender
         [set_gender (Str " M ") (sample 1 (Str "a@b.c") (Fin 1) NaT NaT)])
  = [Str " M "]
  /\ lookup (strip " M ") gender_mapping = Some "Male".
Proof. split; reflexivity. Qed.

(** ** The scenarios of the specification *)

(** Two rows share the id 42: one of them survives, the first. *)
Example scenario_shared_id :
  remove_duplicates
    [sample 42 (Str "first@example.org") (Fin 1) NaT NaT;
     sample 7 (Str "other@example.org") (Fin 2) NaT NaT;
     sample 42 (Str "second@example.org") (Fin 3) NaT NaT]
  = [sample 42 (Str "first@example.org") (Fin 1) NaT NaT;
     sample 7 (Str "other@example.org") (Fin 2) NaT NaT].
Proof. reflexivity. Qed.

(** The department [H.R] becomes [Human Resource]. *)
Example scenario_department :
  map (fun r => department r)
      (standardize_department repr_unused
         [set_department (Str "H.R") (sample 1 (Str "a@b.c") (Fin 1) NaT NaT)])
  = [Str "Human Resource"].
Proof. reflexivity. Qed.

(** Hired on 2021-05-01 and left on 2020-01-01: the exit date is
    missing after the pipeline, the hire date stays. *)
Example scenario_inverted_dates :
  match cleaning_pipeline repr_unused iso_dates
          [raw_sample (Str "thandi@example.org") (Str "-4,500.00") (Str "7")
                      (Str "2021-05-01") (Str "2020-01-01")]
  with
  | Ok out => map (fun r => (salary r, hire_date r, exit_date r)) out
  | Raise _ => []
  end = [(Fin (450000 # 100), Some 1619827200000000000, NaT)].
Proof. reflexivity. Qed.

(* ===================================================================== *)
(** * Further properties of the code *)
(* ===================================================================== *)

(** ** [remove_duplicates]: what it keeps, what it reports *)

Lemma select_negb_length {A : Type} (mask : list bool) (l : list A) :
  List.length mask = List.length l ->
  (List.length (select (map negb mask) l) + count_occ bool_dec mask true)%nat
  = List.length l.
Proof.
  revert l. induction mask as [|b mask IH]; intros [|a l]; simpl;
    try discriminate; [reflexivity|].
  intros L. injection L as L. specialize (IH l L).
  destruct b; simpl.
  - destruct (bool_dec true true); [lia | contradiction].
  - destruct (bool_dec false true); [discriminate | lia].
Qed.

Lemma select_map {A B : Type} (g : A -> B) (mask : list bool) (l : list A) :
  select mask (map g l) = map g (select mask l).
Proof.
  revert l. induction mask as [|b mask IH]; intros [|a l]; simpl; try reflexivity.
  destruct b; simpl; now rewrite IH.
Qed.

Section DedupMore.
Context {N D V : Type}.
Implicit Types (df : list (Row N D V)) (r : Row N D V) (seen : list cell).

Lemma keep_from_all seen df :
  distinct_ids df ->
  Forall (fun r => existsb (same_key (employee_id r)) seen = false) df ->
  keep_from seen df = df.
Proof.
  unfold distinct_ids. revert seen.
  induction df as [|a df IH]; intros seen Hd Hs; [reflexivity|].
  rewrite keep_from_cons.
  inversion Hd as [|? ? Ha Hd']; subst. inversion Hs as [|? ? Hsa Hs']; subst.
  rewrite Hsa. f_equal. apply IH; [exact Hd'|].
  rewrite Forall_forall in *. intros b Hb. simpl.
  rewrite (Hs' b Hb), orb_false_r.
  rewrite same_key_sym. now apply Ha.
Qed.

Lemma find_existsb {A : Type} (p : A -> bool) (l : list A) :
  existsb p l = match find p l with Some _ => true | None => false end.
Proof.
  induction l as [|a l IH]; simpl; [reflexivity|].
  destruct (p a); [reflexivity | exact IH].
Qed.

Lemma keep_from_map seen df (g : Row N D V -> Row N D V) :
  (forall r, employee_id (g r) = employee_id r) ->
  keep_from seen (map g df) = map g (keep_from seen df).
Proof.
  intros H. unfold keep_from. rewrite map_map.
  rewrite (map_ext _ _ H). apply select_map.
Qed.

End DedupMore.

Lemma remove_duplicates_length {N D V : Type} (df : list (Row N D V)) :
  (List.length (remove_duplicates df) + duplicate_ids df)%nat = List.length df.
Proof.
  rewrite remove_duplicates_drop. unfold keep_from, duplicate_ids, duplicated.
  apply select_negb_length.
  now rewrite duplicated_from_length, length_map.
Qed.

(** X1.  The number the script prints first, the count of rows whose id
    was met before, is the number of rows [remove_duplicates] removes:
    with the rows kept it adds up to the rows of the table. *)
Theorem remove_duplicates_removes_marked {N D V : Type} (df : list (Row N D V)) :
  (List.length (remove_duplicates df) + duplicate_ids df)%nat = List.length df
  /\ removed_count df = duplicate_ids df.
Proof.
  pose proof (remove_duplicates_length df) as H.
  split; [exact H|]. unfold removed_count. lia.
Qed.

(** X2.  A table in which no two rows have the same id comes back from
    [remove_duplicates] as it is. *)
Theorem remove_duplicates_nothing_to_do {N D V : Type} (df : list (Row N D V)) :
  distinct_ids df -> remove_duplicates df = df.
Proof.
  intros H. rewrite remove_duplicates_drop. apply keep_from_all; [exact H|].
  apply Forall_forall. reflexivity.
Qed.

Lemma remove_duplicates_nothing_to_do_witness :
  remove_duplicates
    [sample 42 (Str "first@example.org") (Fin 1) NaT NaT;
     sample 7 (Str "other@example.org") (Fin 2) NaT NaT]
  = [sample 42 (Str "first@example.org") (Fin 1) NaT NaT;
     sample 7 (Str "other@example.org") (Fin 2) NaT NaT].
Proof.
  apply (remove_duplicates_nothing_to_do
           [sample 42 (Str "first@example.org") (Fin 1) NaT NaT;
            sample 7 (Str "other@example.org") (Fin 2) NaT NaT]).
  repeat constructor.
Defined.

(** X3.  Running [remove_duplicates] on its own output changes
    nothing. *)
Theorem remove_duplicates_idempotent {N D V : Type} (df : list (Row N D V)) :
  remove_duplicates (remove_duplicates df) = remove_duplicates df.
Proof.
  rewrite (remove_duplicates_drop (remove_duplicates df)).
  apply keep_from_all.
  - rewrite remove_duplicates_drop. apply keep_from_distinct.
  - apply Forall_forall. reflexivity.
Qed.

(** X4.  [remove_duplicates] loses no employee id: an id is the id of
    some row of the output exactly when it is the id of some row of the
    input. *)
Theorem remove_duplicates_keeps_every_id {N D V : Type} (df : list (Row N D V))
  (k : cell) :
  has_id k (remove_duplicates df) = has_id k df.
Proof.
  unfold has_id. rewrite !find_existsb, remove_duplicates_drop.
  change (find (fun r => same_key k (employee_id r)) (keep_from [] df))
    with (first_with_id k (keep_from [] df)).
  now rewrite keep_from_first.
Qed.

(** X5.  [remove_duplicates] could run before the steps that follow the
    conversion instead of last: it commutes with the category
    standardization, with [fix_negative_salaries] and with
    [validate_dates]. *)
Theorem remove_duplicates_commutes {V : Type} (float_repr : Q -> string)
  (df : list (TypedRow V)) :
  remove_duplicates (standardize_categories float_repr df)
  = standardize_categories float_repr (remove_duplicates df)
  /\ remove_duplicates (fix_negative_salaries df)
     = fix_negative_salaries (remove_duplicates df)
  /\ remove_duplicates (validate_dates df) = validate_dates (remove_duplicates df).
Proof.
  rewrite !standardize_categories_rows, !fix_negative_salaries_rows,
    !validate_dates_rows, !remove_duplicates_drop.
  repeat split; apply keep_from_map; intros r.
  - reflexivity.
  - destruct (float_ltb (salary r) zero); reflexivity.
  - destruct (date_ltb (exit_date r) (hire_date r)); reflexivity.
Qed.

Lemma count_true_cons (b : bool) (m : list bool) :
  count_occ bool_dec (b :: m) true
  = ((if b then 1 else 0) + count_occ bool_dec m true)%nat.
Proof.
  simpl. destruct b.
  - destruct (bool_dec true true); [reflexivity | contradiction].
  - destruct (bool_dec false true); [discriminate | reflexivity].
Qed.

(** The rows met again are the same in the table and among its rows
    marked by [keep=False]. *)
Lemma duplicated_among_marked (keys : list cell) : forall seen seen',
  incl seen' seen ->
  (forall x, In x seen -> existsb (same_key x) keys = true ->
             existsb (same_key x) seen' = true) ->
  count_occ bool_dec
    (duplicated_from seen' (select (duplicated_all_from seen keys) keys)) true
  = count_occ bool_dec (duplicated_from seen keys) true.
Proof.
  induction keys as [|k rest IH]; intros seen seen' Hi Hs; [reflexivity|].
  cbn [duplicated_all_from duplicated_from select].
  rewrite count_true_cons.
  destruct (existsb (same_key k) seen || existsb (same_key k) rest) eqn:M.
  - cbn [duplicated_from]. rewrite count_true_cons.
    assert (E : existsb (same_key k) seen' = existsb (same_key k) seen).
    { apply eq_true_iff_eq. rewrite !existsb_exists. split.
      - intros (y & Hy & Hk). exists y. split; [now apply Hi | exact Hk].
      - intros (x & Hx & Hk).
        assert (Hx' : existsb (same_key x) (k :: rest) = true)
          by (simpl; now rewrite same_key_sym, Hk).
        specialize (Hs x Hx Hx'). apply existsb_exists in Hs.
        destruct Hs as (y & Hy & Hxy). exists y. split; [exact Hy|].
        now apply (same_key_trans k x y). }
    rewrite E. f_equal. apply IH.
    + intros y [<-|Hy]; [now left | right; now apply Hi].
    + intros x [<-|Hx] Hr; simpl.
      * now rewrite same_key_refl.
      * rewrite Hs; [apply orb_true_r | exact Hx |].
        simpl. rewrite Hr. apply orb_true_r.
  - apply orb_false_iff in M. destruct M as [M1 M2]. rewrite M1. simpl.
    apply IH.
    + intros y Hy. right. now apply Hi.
    + intros x [<-|Hx] Hr; [congruence|].
      apply Hs; [exact Hx|]. simpl. rewrite Hr. apply orb_true_r.
Qed.

(** X6.  The two numbers the script reports agree: the records it finds
    involved in a duplication ([keep=False]) are the records it removes
    plus one record for each id among the records involved. *)
Theorem duplicates_found_and_removed {N D V : Type} (df : list (Row N D V)) :
  List.length (duplicates df)
  = (removed_count df + List.length (remove_duplicates (duplicates df)))%nat.
Proof.
  pose proof (remove_duplicates_length df) as H1.
  pose proof (remove_duplicates_length (duplicates df)) as H2.
  assert (E : duplicate_ids (duplicates df) = duplicate_ids df).
  { unfold duplicate_ids, duplicates, duplicated. rewrite <- select_map.
    apply duplicated_among_marked; [apply incl_refl | contradiction]. }
  unfold removed_count. lia.
Qed.

(** Two rows share the id 42: two records found, one removed. *)
Example scenario_duplicate_counts :
  let df := [sample 42 (Str "first@example.org") (Fin 1) NaT NaT;
             sample 7 (Str "other@example.org") (Fin 2) NaT NaT;
             sample 42 (Str "second@example.org") (Fin 3) NaT NaT] in
  (List.length (duplicates df), removed_count df, duplicate_ids df)
  = (2%nat, 1%nat, 1%nat).
Proof. reflexivity. Qed.

(** ** Running a step again *)



(** X8.  [validate_dates] on its own output finds no inverted pair of
    dates and returns the table as it is. *)
Theorem validate_dates_idempotent {N V : Type} (df : list (Row N timestamp V)) :
  filter (fun r => date_ltb (exit_date r) (hire_date r)) (validate_dates df) = []
  /\ validate_dates (validate_dates df) = validate_dates df.
Proof.
  assert (H : forall r, In r (validate_dates df) ->
                        date_ltb (exit_date r) (hire_date r) = false).
  { rewrite validate_dates_rows. intros r' H.
    apply in_map_iff in H. destruct H as (r & <- & _).
    destruct (date_ltb (exit_date r) (hire_date r)) eqn:E; [reflexivity | exact E]. }
  split.
  - induction (validate_dates df) as [|a l IH]; [reflexivity|].
    simpl. rewrite (H a) by now left. apply IH. intros r Hr. apply H. now right.
  - rewrite (validate_dates_rows (validate_dates df)).
    rewrite <- (map_id (validate_dates df)) at 2.
    apply map_ext_in. intros r Hr. now rewrite (H r Hr).
Qed.






Lemma Forall2_In_r {A B : Type} (R : A -> B -> Prop) (la : list A) (lb : list B) (b : B) :
  Forall2 R la lb -> In b lb -> exists a, In a la /\ R a b.
Proof.
  induction 1 as [|a0 b0 la lb H0 _ IH]; simpl; [contradiction|].
  intros [<-|Hb]; [exists a0; auto|].
  destruct (IH Hb) as (a & Ha & Hab). exists a. auto.
Qed.








(** ** The pipeline as a whole *)

Lemma standardize_categories_by_row {N D V : Type} (float_repr : Q -> string)
  (df : list (Row N D V)) :
  standardize_categories float_repr df = map (standardize_row float_repr) df.
Proof. apply standardize_categories_rows. Qed.

Lemma traverse_length {A B : Type} (f : A -> result B) (l : list A) (l' : list B) :
  traverse f l = Ok l' -> List.length l' = List.length l.
Proof.
  intros H. apply traverse_ok in H. induction H; simpl; congruence.
Qed.

Lemma Forall2_length_eq {A B : Type} (R : A -> B -> Prop) (la : list A) (lb : list B) :
  Forall2 R la lb -> List.length lb = List.length la.
Proof. induction 1; simpl; congruence. Qed.

Lemma Forall2_map_eq {A B C : Type} (f : A -> C) (g : B -> C) (la : list A) (lb : list B) :
  Forall2 (fun a b => g b = f a) la lb -> map g lb = map f la.
Proof. induction 1; simpl; congruence. Qed.

Section PipelineFacts.
Variable float_repr : Q -> string.
Variable parse_datetime : cell -> option Z.
Implicit Types (raw cleaned_df : list RawRow) (typed : list (TypedRow unit)).

(** After [clean_strings] and the conversion the email column holds
    text, so [validate_emails] returns. *)
Lemma validate_emails_after_clean raw cleaned_df typed :
  clean_strings float_repr raw = Ok cleaned_df ->
  convert_data_types float_repr parse_datetime cleaned_df = Ok typed ->
  validate_emails (standardize_categories float_repr typed)
  = Ok (map flag_row (map (standardize_row float_repr) typed)).
Proof.
  intros Hc Ht. rewrite standardize_categories_by_row.
  unfold validate_emails, str_accessor.
  rewrite is_object_text_column; [reflexivity|].
  apply clean_strings_rows in Hc. destruct Hc as [O Hc].
  rewrite forallb_forall in O. apply traverse_ok in Ht.
  apply Forall_forall. intros r Hr. apply in_map_iff in Hr.
  destruct Hr as (r2 & <- & Hr2).
  destruct (Forall2_In_r _ _ _ _ Ht Hr2) as (r1 & Hr1 & H12).
  destruct (Forall2_In_r _ _ _ _ Hc Hr1) as (r0 & _ & _ & _ & G).
  apply convert_row_fields in H12. destruct H12 as (S & _).
  change (email (standardize_row float_repr r2)) with (email r2).
  rewrite (same_cells_email r1 r2 S).
  change (email r1) with (get col_email r1).
  rewrite G, O by (simpl; tauto). unfold cleaned. eauto.
Qed.

(** The table of step 12 in terms of the stages. *)
Lemma validated_table_stages raw :
  validated_table float_repr parse_datetime raw =
  cleaned_df <- clean_strings float_repr raw ;;
  typed <- convert_data_types float_repr parse_datetime cleaned_df ;;
  Ok (validate_dates
        (fix_negative_salaries
           (map flag_row (map (standardize_row float_repr) typed)))).
Proof.
  unfold validated_table.
  destruct (clean_strings float_repr raw) as [d1|e] eqn:Hc; [|reflexivity].
  cbn [bind].
  destruct (convert_data_types float_repr parse_datetime d1) as [d2|e] eqn:Ht;
    [|reflexivity].
  cbn [bind].
  change (standardize_state
            (standardize_country
               (standardize_currency
                  (standardize_department float_repr (standardize_gender d2)))))
    with (standardize_categories float_repr d2).
  now rewrite (validate_emails_after_clean raw d1 d2 Hc Ht).
Qed.

(** [main] removes the duplicates of the table of step 12. *)
Lemma cleaning_pipeline_validated raw :
  cleaning_pipeline float_repr parse_datetime raw =
  df <- validated_table float_repr parse_datetime raw ;; Ok (remove_duplicates df).
Proof.
  unfold cleaning_pipeline, validated_table.
  destruct (clean_strings float_repr raw) as [d1|e]; [|reflexivity]. cbn [bind].
  destruct (convert_data_types float_repr parse_datetime d1) as [d2|e];
    [|reflexivity].
  cbn [bind].
  destruct (validate_emails _) as [d3|e]; reflexivity.
Qed.


End PipelineFacts.


Lemma remove_duplicates_ids {N D V : Type} (df : list (Row N D V)) :
  map employee_id (remove_duplicates df)
  = select (map negb (duplicated (map employee_id df))) (map employee_id df).
Proof.
  rewrite remove_duplicates_drop. unfold keep_from, duplicated.
  symmetry. apply select_map.
Qed.

Lemma validated_table_ids (float_repr : Q -> string) (parse_datetime : cell -> option Z)
  (raw cleaned_df : list RawRow) (df : list (TypedRow bool)) :
  clean_strings float_repr raw = Ok cleaned_df ->
  validated_table float_repr parse_datetime raw = Ok df ->
  map employee_id df = map employee_id cleaned_df.
Proof.
  intros Hc. rewrite validated_table_stages, Hc. cbn [bind]. intros H.
  apply bind_ok in H. destruct H as (d2 & Ht & H). injection H as <-.
  rewrite validate_dates_rows, fix_negative_salaries_rows, !map_map.
  apply traverse_ok in Ht. apply Forall2_map_eq.
  eapply Forall2_impl; [|exact Ht]. cbv beta. intros r1 r2 H12.
  apply convert_row_fields in H12. destruct H12 as ((S & _) & _).
  rewrite <- S.
  destruct (float_ltb (salary (flag_row (standardize_row float_repr r2))) zero);
    match goal with
    | |- context [if ?b then _ else _] => destruct b
    end; reflexivity.
Qed.

(** X11.  Which rows the pipeline drops is decided by the ids as
    [clean_strings] leaves them: the ids of the output are the ids of
    the cleaned table without those met before, and the rows of the
    output and the cleaned ids met before add up to the rows of the
    input. *)
Theorem cleaning_pipeline_ids (float_repr : Q -> string)
  (parse_datetime : cell -> option Z) (raw : list RawRow) (out : list (TypedRow bool)) :
  cleaning_pipeline float_repr parse_datetime raw = Ok out ->
  exists cleaned_df,
    clean_strings float_repr raw = Ok cleaned_df /\
    map employee_id out = map employee_id (remove_duplicates cleaned_df) /\
    (List.length out + duplicate_ids cleaned_df)%nat = List.length raw.
Proof.
  rewrite cleaning_pipeline_validated. intros H.
  apply bind_ok in H. destruct H as (df & Hv & H). injection H as <-.
  pose proof Hv as Hs. rewrite validated_table_stages in Hs.
  apply bind_ok in Hs. destruct Hs as (d1 & Hc & _).
  exists d1. split; [exact Hc|].
  pose proof (validated_table_ids float_repr parse_datetime raw d1 df Hc Hv) as E.
  assert (I : map employee_id (remove_duplicates df)
              = map employee_id (remove_duplicates d1))
    by now rewrite !remove_duplicates_ids, E.
  split; [exact I|].
  pose proof (remove_duplicates_length d1) as L.
  apply clean_strings_rows in Hc. destruct Hc as [_ Hc].
  apply Forall2_length_eq in Hc.
  apply (f_equal (@List.length cell)) in I. rewrite !length_map in I.
  etransitivity; [|exact Hc]. etransitivity; [|exact L].
  apply (f_equal (fun n => (n + duplicate_ids d1)%nat)). exact I.
Qed.

Lemma cleaning_pipeline_ids_witness :
  exists cleaned_df,
    clean_strings repr_unused untidy_table = Ok cleaned_df /\
    map employee_id tidy_output = map employee_id (remove_duplicates cleaned_df) /\
    (List.length tidy_output + duplicate_ids cleaned_df)%nat
    = List.length untidy_table.
Proof.
  apply (cleaning_pipeline_ids repr_unused iso_dates untidy_table tidy_output).
  reflexivity.
Defined.













(** ** Step 16 and the script [clean_employee_data.py] *)

Lemma remove_duplicates_map {N D V N' D' V' : Type}
  (g : Row N D V -> Row N' D' V') (df : list (Row N D V)) :
  (forall r, employee_id (g r) = employee_id r) ->
  remove_duplicates (map g df) = map g (remove_duplicates df).
Proof.
  intros H. rewrite !remove_duplicates_drop. unfold keep_from.
  rewrite map_map, (map_ext _ _ H). apply select_map.
Qed.

(** X14.  The step [validate_emails] has no effect on what is exported:
    the table [export_cleaned_data] writes after the pipeline is the
    table the other steps give without it, and it has as many rows as
    the table the pipeline returns. *)
Theorem export_table_without_flags (float_repr : Q -> string)
  (parse_datetime : cell -> option Z) (raw : list RawRow) (out : list (TypedRow bool)) :
  cleaning_pipeline float_repr parse_datetime raw = Ok out ->
  exists cleaned_df typed,
    clean_strings float_repr raw = Ok cleaned_df /\
    convert_data_types float_repr parse_datetime cleaned_df = Ok typed /\
    export_table out
    = remove_duplicates
        (validate_dates
           (fix_negative_salaries (standardize_categories float_repr typed))) /\
    List.length (export_table out) = List.length out.
Proof.
  rewrite cleaning_pipeline_validated, validated_table_stages. intros H.
  apply bind_ok in H. destruct H as (df & H & E). injection E as <-.
  apply bind_ok in H. destruct H as (d1 & Hc & H).
  apply bind_ok in H. destruct H as (d2 & Ht & H). injection H as <-.
  exists d1, d2. split; [exact Hc|]. split; [exact Ht|].
  split; [|unfold export_table; apply length_map].
  unfold export_table. rewrite <- remove_duplicates_map by reflexivity.
  f_equal. rewrite standardize_categories_by_row.
  rewrite !validate_dates_rows, !fix_negative_salaries_rows, !map_map.
  apply map_ext. intros r.
  unfold flag_row. generalize (str_match email_pattern false
                                 (email (standardize_row float_repr r))).
  intros b.
  destruct (standardize_row float_repr r) as [? ? ? ? ? ? ? ? ? ? sal ? hd ed []].
  cbn -[float_ltb float_abs date_ltb zero].
  destruct (float_ltb sal zero); cbn -[float_ltb float_abs date_ltb zero];
    destruct (date_ltb ed hd); reflexivity.
Qed.

Lemma export_table_without_flags_witness :
  exists cleaned_df typed,
    clean_strings repr_unused untidy_table = Ok cleaned_df /\
    convert_data_types repr_unused iso_dates cleaned_df = Ok typed /\
    export_table tidy_output
    = remove_duplicates
        (validate_dates
           (fix_negative_salaries (standardize_categories repr_unused typed))) /\
    List.length (export_table tidy_output) = List.length tidy_output.
Proof.
  apply (export_table_without_flags repr_unused iso_dates untidy_table tidy_output).
  reflexivity.
Defined.






(** The variant [H.R.] is where the two differ. *)
Example script_leaves_variant :
  map (fun r => department r)
      (clean_employee_data
         [set_department (Str "H.R.") (sample 1 (Str "a@b.c") (Fin 1) NaT NaT)])
  = [Str "H.R."]
  /\ map (fun r => department r)
       (standardize_department repr_unused
          [set_department (Str "H.R.") (sample 1 (Str "a@b.c") (Fin 1) NaT NaT)])
     = [Str "Human Resource"].
Proof. split; reflexivity. Qed.

(** ** The script [hr_kpis.py] *)

Lemma count_where_cons {R : Type} (p : R -> bool) (a : R) (l : list R) :
  count_where p (a :: l) = ((if p a then 1 else 0) + count_where p l)%nat.
Proof. unfold count_where. simpl. destruct (p a); reflexivity. Qed.

(** X16.  KPI 1 of [hr_kpis.py] cannot be computed for a table without
    rows (the division for the attrition rate raises), and for any other
    table the active rows, the inactive rows and the rows whose
    [is_active] compares equal to neither [True] nor [False] (a missing
    value does) add up to the total: active and inactive alone fall
    short of the total by those rows. *)
Theorem overall_kpis_counts (is_active : list (option bool)) :
  (overall_kpis is_active = None <-> is_active = [])
  /\ forall total active inactive,
       overall_kpis is_active = Some (total, active, inactive) ->
       total = List.length is_active /\
       (active + inactive
        + count_where (fun a => match a with None => true | Some _ => false end)
                      is_active)%nat = total.
Proof.
  split.
  - unfold overall_kpis. destruct is_active as [|a l]; simpl; split;
      try discriminate; reflexivity.
  - intros total active inactive H. unfold overall_kpis in H.
    destruct (List.length is_active =? 0)%nat; [discriminate|].
    injection H as <- <- <-. split; [reflexivity|].
    unfold active_employees, inactive_employees.
    induction is_active as [|a l IH]; [reflexivity|].
    rewrite !count_where_cons. simpl List.length.
    destruct a as [[|]|]; lia.
Qed.

Lemma tally_head (y : Z) (sizes : list (Z * nat)) :
  match tally y sizes with
  | [] => False
  | (k, _) :: _ => k = y \/ exists n rest, sizes = (k, n) :: rest
  end.
Proof.
  destruct sizes as [|[y' n] rest]; simpl; [now left|].
  destruct (y <? y'); [now left|].
  destruct (y =? y'); right; eauto.
Qed.

Lemma tally_ascending (y : Z) (sizes : list (Z * nat)) :
  ascending sizes -> ascending (tally y sizes).
Proof.
  induction sizes as [|[y' n] rest IH]; intros H; [simpl; auto|].
  cbn [tally].
  destruct (y <? y') eqn:L; [apply Z.ltb_lt in L; split; [exact L | exact H]|].
  destruct (y =? y') eqn:E; [exact H|].
  apply Z.ltb_ge in L. apply Z.eqb_neq in E.
  destruct H as [Hh Hr]. split; [|now apply IH].
  pose proof (tally_head y rest) as T.
  destruct (tally y rest) as [|[k m] rest']; [exact I|].
  destruct T as [->|(n' & r' & ->)]; [lia | exact Hh].
Qed.

Lemma count_for_tally (y y0 : Z) (sizes : list (Z * nat)) :
  count_for y (tally y0 sizes)
  = Nat.add (count_for y sizes) (if y =? y0 then 1%nat else 0%nat).
Proof.
  induction sizes as [|[y' n] rest IH]; cbn [tally count_for].
  - destruct (y =? y0); reflexivity.
  - destruct (y0 <? y') eqn:L.
    + cbn [count_for]. destruct (y =? y0); lia.
    + destruct (y0 =? y') eqn:E.
      * apply Z.eqb_eq in E. subst y'. cbn [count_for].
        destruct (y =? y0); lia.
      * cbn [count_for]. rewrite IH. lia.
Qed.

Lemma total_hires_tally (y : Z) (sizes : list (Z * nat)) :
  total_hires (tally y sizes) = S (total_hires sizes).
Proof.
  induction sizes as [|[y' n] rest IH]; [reflexivity|].
  cbn [tally]. destruct (y <? y'); [reflexivity|].
  destruct (y =? y'); [reflexivity|].
  simpl in *. rewrite IH. lia.
Qed.

Lemma tally_positive (y : Z) (sizes : list (Z * nat)) :
  Forall (fun line => (0 < snd line)%nat) sizes ->
  Forall (fun line => (0 < snd line)%nat) (tally y sizes).
Proof.
  induction sizes as [|[y' n] rest IH]; intros H; cbn [tally].
  - constructor; [simpl; lia | constructor].
  - inversion H as [|? ? Hn Hr]; subst.
    destruct (y <? y'); [constructor; [simpl; lia | exact H]|].
    destruct (y =? y'); constructor; simpl in *; auto; lia.
Qed.

Lemma fold_tally_facts (years : list (option Z)) : forall sizes,
  ascending sizes ->
  Forall (fun line => (0 < snd line)%nat) sizes ->
  ascending (fold_left tally_row years sizes)
  /\ Forall (fun line => (0 < snd line)%nat) (fold_left tally_row years sizes)
  /\ (forall y, count_for y (fold_left tally_row years sizes)
                = (count_for y sizes + rows_of_year y years)%nat)
  /\ total_hires (fold_left tally_row years sizes)
     = (total_hires sizes + rows_with_year years)%nat.
Proof.
  unfold rows_of_year, rows_with_year.
  induction years as [|o years IH]; intros sizes A P; cbn [fold_left].
  - repeat split; auto; intros; unfold count_where; simpl; lia.
  - assert (A' : ascending (tally_row sizes o))
      by (destruct o; [now apply tally_ascending | exact A]).
    assert (P' : Forall (fun line => (0 < snd line)%nat) (tally_row sizes o))
      by (destruct o; [now apply tally_positive | exact P]).
    destruct (IH (tally_row sizes o) A' P') as (I1 & I2 & I3 & I4).
    repeat split; auto.
    + intros y. rewrite I3, count_where_cons. destruct o as [y0|]; simpl.
      * rewrite count_for_tally, (Z.eqb_sym y y0). lia.
      * lia.
    + rewrite I4, count_where_cons. destruct o as [y0|]; simpl.
      * rewrite total_hires_tally. lia.
      * lia.
Qed.

Lemma ascending_above (y : Z) (n : nat) (rest : list (Z * nat)) :
  ascending ((y, n) :: rest) -> Forall (fun line => y < fst line) rest.
Proof.
  revert y n. induction rest as [|[y' n'] rest IH]; intros y n H; constructor.
  - simpl in *. tauto.
  - destruct H as [H1 H2]. specialize (IH y' n' H2).
    eapply Forall_impl; [|exact IH]. simpl. intros a Ha. lia.
Qed.

Lemma count_for_absent (y : Z) (sizes : list (Z * nat)) :
  Forall (fun line => y < fst line) sizes -> count_for y sizes = 0%nat.
Proof.
  induction 1 as [|[y' n] rest H _ IH]; [reflexivity|].
  simpl in *. rewrite IH. destruct (Z.eqb_spec y y'); [lia | reflexivity].
Qed.

Lemma count_for_line (y : Z) (n : nat) (sizes : list (Z * nat)) :
  ascending sizes -> In (y, n) sizes -> count_for y sizes = n.
Proof.
  induction sizes as [|[y' n'] rest IH]; intros A H; [contradiction|].
  pose proof (ascending_above y' n' rest A) as Ab.
  destruct H as [H|H].
  - injection H as -> ->. cbn [count_for]. rewrite Z.eqb_refl.
    rewrite (count_for_absent y rest Ab). lia.
  - cbn [count_for]. rewrite (IH (proj2 A) H).
    rewrite Forall_forall in Ab. specialize (Ab (y, n) H). simpl in Ab.
    destruct (Z.eqb_spec y y'); [lia | reflexivity].
Qed.

Lemma count_for_listed (y : Z) (sizes : list (Z * nat)) :
  (0 < count_for y sizes)%nat -> exists n, In (y, n) sizes.
Proof.
  induction sizes as [|[y' n'] rest IH]; simpl; [lia|].
  destruct (Z.eqb_spec y y') as [->|Hn]; [eauto|].
  intros H. destruct (IH H) as (n & Hn'). eauto.
Qed.

Lemma rows_of_hire_year (year_of : Z -> Z) {N V : Type} (y : Z)
  (df : list (Row N timestamp V)) :
  rows_of_year y (hire_years year_of df) = hired_in year_of y df.
Proof.
  unfold rows_of_year, hire_years, hired_in.
  induction df as [|r df IH]; [reflexivity|].
  cbn [map]. rewrite !count_where_cons, IH. clear IH.
  unfold timestamp in *. destruct (hire_date r); reflexivity.
Qed.

(** X17.  KPI 2 of [hr_kpis.py]: the lines of hires by year are in
    strictly ascending order of the year; a line [(y, n)] is there
    exactly when [n] rows were hired in the year [y] and [n] is not
    zero; and the lines together count every row that has a hire date
    once, the rows without one not at all. *)
Theorem hires_by_year_counts (year_of : Z -> Z) {N V : Type}
  (df : list (Row N timestamp V)) :
  ascending (hires_by_year year_of df)
  /\ (forall y n, In (y, n) (hires_by_year year_of df) <->
                  n = hired_in year_of y df /\ (0 < n)%nat)
  /\ total_hires (hires_by_year year_of df)
     = count_where (fun r => negb (isnull_date (hire_date r))) df.
Proof.
  destruct (fold_tally_facts (hire_years year_of df) [] I (Forall_nil _))
    as (A & P & C & T).
  fold (group_sizes (hire_years year_of df)) in A, P, C, T.
  fold (hires_by_year year_of df) in A, P, C, T.
  split; [exact A|]. split.
  - intros y n. specialize (C y). simpl in C.
    rewrite rows_of_hire_year in C. split.
    + intros H. rewrite (count_for_line y n _ A H) in C. split; [exact C|].
      rewrite Forall_forall in P. apply (P (y, n) H).
    + intros (-> & Hn). rewrite <- C in Hn.
      destruct (count_for_listed y _ Hn) as (m & Hm).
      rewrite <- C, (count_for_line y m _ A Hm). exact Hm.
  - rewrite T. clear A P C T. simpl. unfold rows_with_year, hire_years.
    induction df as [|r df IH]; [reflexivity|].
    cbn [map]. rewrite !count_where_cons, IH. clear IH.
    unfold timestamp in *. destruct (hire_date r); reflexivity.
Qed.

(** Three hires in 2021 and one in 2020, in the order of the years; the
    row without a hire date is in no line. *)
Example scenario_hires_by_year :
  hires_by_year year_of_timestamp
    [sample 1 (Str "a@b.c") (Fin 1) (Some 1619827200000000000) NaT;
     sample 2 (Str "a@b.c") (Fin 1) NaT NaT;
     sample 3 (Str "a@b.c") (Fin 1) (Some 1577836800000000000) NaT;
     sample 4 (Str "a@b.c") (Fin 1) (Some 1619827200000000000) NaT;
     sample 5 (Str "a@b.c") (Fin 1) (Some 1609459200000000000) NaT]
  = [(2020, 1%nat); (2021, 3%nat)].
Proof. reflexivity. Qed.
